(** * ProductARViewer: customization parsing, capability probe, fit check,
      AR status handling and frame capture

    A shallow embedding of the decision logic of
    [src/app/welcome/welcome.tsx] (and of its sibling
    [src/unnamed/part_000], which carries the same functions and differs in
    the icon bytes of the fit-check records).

    - JavaScript numbers are IEEE 754 binary64 values: Rocq's primitive
      [float], with [PrimFloat.ltb]/[PrimFloat.leb] for [<]/[<=].
    - JavaScript strings are [string]s holding their UTF-8 bytes.
    - React state is a record; a handler is a computation in a small
      state/trace/exception monad whose trace lists the calls made to the
      browser and to the viewer element.
    - The page of part_000 (its document, its timers and the events its
      markup offers) is a transition system over these handlers. *)

From Stdlib Require Import ZArith NArith List String Ascii Bool Lia Floats.
From Stdlib Require Uint63.
Import ListNotations.

Open Scope string_scope.

(* ------------------------------------------------------------------ *)
(** ** JavaScript values used by the component *)

Module JS.

(** [number]: a binary64 float. *)
Definition number := float.

(** [a || b] on [string | null]: [null] and the empty string are falsy. *)
Definition or_else (a : option string) (b : string) : string :=
  match a with
  | Some (String c r) => String c r
  | Some EmptyString => b
  | None => b
  end.

(** *** [parseFloat]

    ECMAScript [parseFloat(string)]: trim leading white space, take the
    longest prefix that is a [StrDecimalLiteral], return its numeric value
    rounded to binary64, or [NaN] when there is no such prefix. *)

(** One [WhiteSpace] or [LineTerminator] code point at the head of the
    UTF-8 bytes: U+0009..U+000D, U+0020, U+00A0, U+1680, U+2000..U+200A,
    U+2028, U+2029, U+202F, U+205F, U+3000, U+FEFF. *)
Definition dropWhiteSpace1 (s : string) : option string :=
  match s with
  | EmptyString => None
  | String c r =>
      let n := N_of_ascii c in
      if ((9 <=? n) && (n <=? 13) || (n =? 32))%N then Some r
      else
        match r with
        | String d r1 =>
            let k := N_of_ascii d in
            if ((n =? 194) && (k =? 160))%N then Some r1
            else
              match r1 with
              | String e r2 =>
                  let j := N_of_ascii e in
                  if ((n =? 225) && (k =? 154) && (j =? 128)
                      || (n =? 226) && (k =? 128)
                         && ((128 <=? j) && (j <=? 138)
                             || (j =? 168) || (j =? 169) || (j =? 175))
                      || (n =? 226) && (k =? 129) && (j =? 159)
                      || (n =? 227) && (k =? 128) && (j =? 128)
                      || (n =? 239) && (k =? 187) && (j =? 191))%N
                  then Some r2 else None
              | EmptyString => None
              end
        | EmptyString => None
        end
  end.

Fixpoint trimStart_aux (fuel : nat) (s : string) : string :=
  match fuel with
  | O => s
  | S fuel' =>
      match dropWhiteSpace1 s with
      | Some r => trimStart_aux fuel' r
      | None => s
      end
  end.

(** Every dropped code point removes at least one byte, so the length of
    the string is fuel enough. *)
Definition trimStart (s : string) : string :=
  trimStart_aux (String.length s) s.

Definition digitValue (c : ascii) : option N :=
  let n := N_of_ascii c in
  if ((48 <=? n) && (n <=? 57))%N then Some (n - 48)%N else None.

(** [DecimalDigits], as long as they last: the digits read so far as one
    integer (continuing [acc]), how many were read, and the rest. *)
Fixpoint scanDigits (s : string) (acc : N) (count : nat)
  : N * nat * string :=
  match s with
  | EmptyString => (acc, count, s)
  | String c r =>
      match digitValue c with
      | Some d => scanDigits r (10 * acc + d)%N (S count)
      | None => (acc, count, s)
      end
  end.

(** A scanned [StrDecimalLiteral]: [Infinity], or the integer made of all
    its digits with a power of ten. *)
Inductive StrDecimalLiteral : Type :=
| LitInfinity (neg : bool)
| LitDecimal (neg : bool) (digits : N) (exp10 : Z).

(** [ExponentPart], when one starts [s]; an [e] that no digit follows is
    not part of the longest literal prefix and contributes nothing. *)
Definition scanExponent (s : string) : Z :=
  match s with
  | String c r =>
      if (Ascii.eqb c "e" || Ascii.eqb c "E")%char then
        let '(neg, r1) :=
          match r with
          | String "+"%char r' => (false, r')
          | String "-"%char r' => (true, r')
          | _ => (false, r)
          end in
        let '(v, n, _) := scanDigits r1 0%N O in
        match n with
        | O => 0%Z
        | S _ => if neg then (- Z.of_N v)%Z else Z.of_N v
        end
      else 0%Z
  | EmptyString => 0%Z
  end.

Definition scanUnsigned (neg : bool) (s : string)
  : option StrDecimalLiteral :=
  if String.prefix "Infinity" s then Some (LitInfinity neg)
  else
    let '(i, ni, r) := scanDigits s 0%N O in
    match r with
    | String "."%char r' =>
        let '(m, nf, r'') := scanDigits r' i O in
        match (ni + nf)%nat with
        | O => None
        | S _ => Some (LitDecimal neg m (scanExponent r'' - Z.of_nat nf)%Z)
        end
    | _ =>
        match ni with
        | O => None
        | S _ => Some (LitDecimal neg i (scanExponent r))
        end
    end.

Definition scanStrDecimalLiteral (s : string) : option StrDecimalLiteral :=
  match s with
  | String "+"%char r => scanUnsigned false r
  | String "-"%char r => scanUnsigned true r
  | _ => scanUnsigned false s
  end.

(** The binary64 value nearest to [digits * 10 ^ exp10] (ties to even),
    computed exactly on integers. *)
Definition roundDecimal (neg : bool) (digits : N) (exp10 : Z) : spec_float :=
  match digits with
  | N0 => S754_zero neg
  | Npos p =>
      match exp10 with
      | Zneg k =>
          let '(q, e, l) :=
            SFdiv_core_binary prec emax (Zpos p) 0 (Z.pow_pos 10 k) 0 in
          binary_round_aux prec emax neg q e l
      | _ => binary_round prec emax neg (Z.to_pos (Zpos p * 10 ^ exp10)) 0
      end
  end.

Definition literalValue (l : StrDecimalLiteral) : number :=
  match l with
  | LitInfinity neg => if neg then neg_infinity else infinity
  | LitDecimal neg m e => SF2Prim (roundDecimal neg m e)
  end.

Definition parseFloat (s : string) : number :=
  match scanStrDecimalLiteral (trimStart s) with
  | Some l => literalValue l
  | None => nan
  end.

(** The string parses as a floating-point number: after the leading white
    space it starts with a [StrDecimalLiteral]. *)
Definition hasNumericPrefix (s : string) : bool :=
  match scanStrDecimalLiteral (trimStart s) with
  | Some _ => true
  | None => false
  end.

(** *** [Math.max]

    Starts from [-Infinity]; a [NaN] argument makes the result [NaN];
    [+0] ranks above [-0]. *)
Fixpoint max_from (highest : number) (args : list number) : number :=
  match args with
  | [] => highest
  | x :: rest =>
      if PrimFloat.is_nan x then nan
      else
        let highest1 :=
          match PrimFloat.classify x, PrimFloat.classify highest with
          | PZero, NZero => x
          | _, _ => highest
          end in
        max_from (if PrimFloat.ltb highest1 x then x else highest1) rest
  end.

Definition Math_max (args : list number) : number :=
  max_from neg_infinity args.

(** *** [URLSearchParams]

    The decoded name/value pairs in query order; [get] returns the first
    value stored under the name, or [null]. *)
Definition URLSearchParams := list (string * string).

Fixpoint get (params : URLSearchParams) (name : string) : option string :=
  match params with
  | [] => None
  | (k, v) :: rest => if String.eqb k name then Some v else get rest name
  end.

End JS.

(* ------------------------------------------------------------------ *)
(** ** Data model *)

Record Customization : Type := {
  color : string;
  scale : JS.number;
  pattern : option string;    (* [pattern?: string] *)
  material : option string    (* [material?: string] *)
}.

Record Dimensions : Type := {
  width : JS.number;
  height : JS.number;
  depth : JS.number
}.

(** The fourth field of the source is [color]; the name is taken by
    [Customization], so it is [fit_color] here. *)
Record FitCheckResult : Type := {
  fits : bool;
  message : string;
  icon : string;
  fit_color : string
}.

Inductive ARStatus : Type :=
| idle | detecting | ready | placed | session_started | failed.

Definition JsError := string.
Definition Blob := string.

(** What an awaited call, or a call that may throw, comes back with. *)
Inductive Completion (A : Type) : Type :=
| Normal (a : A)
| Throw (e : JsError).
Arguments Normal {A} a.
Arguments Throw {A} e.

(** The [<model-viewer>] element behind [modelViewerRef.current], seen
    through the members the component uses. *)
Record ModelViewer : Type := {
  canActivateAR : bool;
  toBlob : Completion Blob      (* the promise of [toBlob(...)], settled *)
}.

(** The anchor element built by the capture. *)
Record Anchor : Type := {
  href : string;
  download : string
}.

(** [navigator.xr.isSessionSupported('immersive-ar')]: a promise that
    resolves or rejects, or a call that throws before returning one. *)
Inductive XRProbe : Type :=
| Resolves (supported : bool)
| Rejects (reason : JsError)
| ThrowsSync (e : JsError).

(** DOM and URL calls made inside the [try] block of the capture. *)
Inductive DomCall : Type :=
| CallCreateObjectURL | CallCreateElement
| CallAppendChild | CallClick | CallRemoveChild | CallRevokeObjectURL.

(** The browser the component runs in. *)
Record Browser : Type := {
  xr : option XRProbe;               (* [None]: no ['xr' in navigator] *)
  hasVibrate : bool;                 (* ['vibrate' in navigator] *)
  objectURL : Blob -> string;        (* the URL [createObjectURL] hands out *)
  now : string;                      (* [new Date().toISOString()] *)
  fault : DomCall -> option JsError  (* the calls that throw, if any *)
}.

(** Timer callbacks, by name. *)
Inductive Callback : Type :=
| ClearCaptureStatus.                (* [() => setCaptureStatus('')] *)

(** Calls that leave the component. *)
Inductive Effect : Type :=
| ConsoleLog (args : list string)
| ConsoleError (label : string) (error : JsError)
| Alert (msg : string)
| Vibrate (pattern : list Z)
| ActivateAR
| CreateObjectURL (blob : Blob) (url : string)
| CreateElement (tag : string)
| AppendChild (link : Anchor)
| Click (link : Anchor)
| RemoveChild (link : Anchor)
| RevokeObjectURL (url : string)
| SetTimeout (cb : Callback) (ms : Z).

(** The [useState] cells and the [useRef] cell of [ProductARViewer]. *)
Record ViewerState : Type := {
  isMobile : bool;
  isIOS : bool;
  webXRSupported : bool;
  showConfirmation : bool;
  customizations : Customization;
  arStatus : ARStatus;
  captureEnabled : bool;
  showMeasurements : bool;
  dimensions : option Dimensions;
  fitCheckResult : option FitCheckResult;
  customUSDZUrl : string;
  isModelLoaded : bool;
  showInstructions : bool;
  captureStatus : string;
  modelViewerRef : option ModelViewer
}.

Definition initialState : ViewerState := {|
  isMobile := false;
  isIOS := false;
  webXRSupported := false;
  showConfirmation := false;
  customizations :=
    {| color := "#FFFFFF"; scale := 1%float;
       pattern := Some "solid"; material := Some "default" |};
  arStatus := idle;
  captureEnabled := false;
  showMeasurements := false;
  dimensions := None;
  fitCheckResult := None;
  customUSDZUrl := "";
  isModelLoaded := false;
  showInstructions := true;
  captureStatus := "";
  modelViewerRef := None
|}.

(* ------------------------------------------------------------------ *)
(** ** The handler monad: state, trace of effects, exceptions *)

Record World : Type := {
  state : ViewerState;
  trace : list Effect     (* oldest first *)
}.

Definition Eff (A : Type) : Type := World -> Completion A * World.

Definition ret {A} (a : A) : Eff A := fun w => (Normal a, w).

Definition bind {A B} (c : Eff A) (k : A -> Eff B) : Eff B :=
  fun w =>
    match c w with
    | (Normal a, w') => k a w'
    | (Throw e, w') => (Throw e, w')
    end.

Definition throw {A} (e : JsError) : Eff A := fun w => (Throw e, w).

(** [try { body } catch (error) { handler }]: what [body] did before it
    threw stays done. *)
Definition try_catch {A} (body : Eff A) (handler : JsError -> Eff A) : Eff A :=
  fun w =>
    match body w with
    | (Normal a, w') => (Normal a, w')
    | (Throw e, w') => handler e w'
    end.

Definition emit (e : Effect) : Eff unit :=
  fun w => (Normal tt, {| state := state w; trace := trace w ++ [e] |}).

Definition get_state : Eff ViewerState := fun w => (Normal (state w), w).

Definition modify (f : ViewerState -> ViewerState) : Eff unit :=
  fun w => (Normal tt, {| state := f (state w); trace := trace w |}).

(** [await p] and a call that may throw: the value or the exception. *)
Definition settle {A} (c : Completion A) : Eff A :=
  match c with
  | Normal a => ret a
  | Throw e => throw e
  end.

Declare Scope eff_scope.
Delimit Scope eff_scope with eff.
Notation "x <- c ;; k" := (bind c (fun x => k))
  (at level 61, c at next level, right associativity) : eff_scope.
Notation "c ;; k" := (bind c (fun _ => k))
  (at level 61, right associativity) : eff_scope.
Open Scope eff_scope.

(** Run a handler from a state, with an empty trace. *)
Definition run {A} (c : Eff A) (s : ViewerState) : Completion A * World :=
  c {| state := s; trace := [] |}.

(** *** The state setters the handlers call *)

Definition setShowConfirmation (v : bool) : Eff unit :=
  modify (fun s => {|
    isMobile := isMobile s; isIOS := isIOS s;
    webXRSupported := webXRSupported s; showConfirmation := v;
    customizations := customizations s; arStatus := arStatus s;
    captureEnabled := captureEnabled s;
    showMeasurements := showMeasurements s; dimensions := dimensions s;
    fitCheckResult := fitCheckResult s; customUSDZUrl := customUSDZUrl s;
    isModelLoaded := isModelLoaded s; showInstructions := showInstructions s;
    captureStatus := captureStatus s; modelViewerRef := modelViewerRef s |}).

Definition setArStatus (v : ARStatus) : Eff unit :=
  modify (fun s => {|
    isMobile := isMobile s; isIOS := isIOS s;
    webXRSupported := webXRSupported s;
    showConfirmation := showConfirmation s;
    customizations := customizations s; arStatus := v;
    captureEnabled := captureEnabled s;
    showMeasurements := showMeasurements s; dimensions := dimensions s;
    fitCheckResult := fitCheckResult s; customUSDZUrl := customUSDZUrl s;
    isModelLoaded := isModelLoaded s; showInstructions := showInstructions s;
    captureStatus := captureStatus s; modelViewerRef := modelViewerRef s |}).

Definition setShowMeasurements (v : bool) : Eff unit :=
  modify (fun s => {|
    isMobile := isMobile s; isIOS := isIOS s;
    webXRSupported := webXRSupported s;
    showConfirmation := showConfirmation s;
    customizations := customizations s; arStatus := arStatus s;
    captureEnabled := captureEnabled s;
    showMeasurements := v; dimensions := dimensions s;
    fitCheckResult := fitCheckResult s; customUSDZUrl := customUSDZUrl s;
    isModelLoaded := isModelLoaded s; showInstructions := showInstructions s;
    captureStatus := captureStatus s; modelViewerRef := modelViewerRef s |}).

Definition setFitCheckResult (v : option FitCheckResult) : Eff unit :=
  modify (fun s => {|
    isMobile := isMobile s; isIOS := isIOS s;
    webXRSupported := webXRSupported s;
    showConfirmation := showConfirmation s;
    customizations := customizations s; arStatus := arStatus s;
    captureEnabled := captureEnabled s;
    showMeasurements := showMeasurements s; dimensions := dimensions s;
    fitCheckResult := v; customUSDZUrl := customUSDZUrl s;
    isModelLoaded := isModelLoaded s; showInstructions := showInstructions s;
    captureStatus := captureStatus s; modelViewerRef := modelViewerRef s |}).

Definition setCaptureStatus (v : string) : Eff unit :=
  modify (fun s => {|
    isMobile := isMobile s; isIOS := isIOS s;
    webXRSupported := webXRSupported s;
    showConfirmation := showConfirmation s;
    customizations := customizations s; arStatus := arStatus s;
    captureEnabled := captureEnabled s;
    showMeasurements := showMeasurements s; dimensions := dimensions s;
    fitCheckResult := fitCheckResult s; customUSDZUrl := customUSDZUrl s;
    isModelLoaded := isModelLoaded s; showInstructions := showInstructions s;
    captureStatus := v; modelViewerRef := modelViewerRef s |}).

(* ------------------------------------------------------------------ *)
(** ** The functions of the component *)

(** [parseUrlParams], from the parameters of [window.location.search]. *)
Definition parseUrlParams (params : JS.URLSearchParams) : Customization := {|
  color := JS.or_else (JS.get params "color") "#FFFFFF";
  scale := JS.parseFloat (JS.or_else (JS.get params "scale") "1.0");
  pattern := Some (JS.or_else (JS.get params "pattern") "solid");
  material := Some (JS.or_else (JS.get params "material") "default")
|}.

(** The string literals in which the two source files differ: the icons of
    the fit-check records and the two capture status messages. *)
Record Glyphs : Type := {
  warningSign : string;
  highVoltage : string;
  checkMark : string;
  imageSaved : string;
  captureFailed : string
}.

Definition welcome_glyphs : Glyphs := {|
  warningSign := "⚠️";
  highVoltage := "⚡";
  checkMark := "✓";
  imageSaved := "Image saved! ✓";
  captureFailed := "Capture failed ✗"
|}.

Definition part_000_glyphs : Glyphs := {|
  warningSign := "‚ö†Ô∏è";
  highVoltage := "‚ö°";
  checkMark := "‚úì";
  imageSaved := "Image saved! ‚úì";
  captureFailed := "Capture failed ‚úó"
|}.

Section Component.

Variable env : Browser.
Variable glyphs : Glyphs.

(** *** [supportsWebXR] *)

Definition isSessionSupported (probe : XRProbe) : Eff bool :=
  match probe with
  | Resolves supported => ret supported
  | Rejects reason => throw reason
  | ThrowsSync e => throw e
  end.

Definition supportsWebXR : Eff bool :=
  match xr env with
  | Some probe =>
      try_catch (isSessionSupported probe) (fun _ => ret false)
  | None => ret false
  end.

(** *** The fit check ([useEffect] on [dimensions]) *)

Definition estimatedRoomWidth : JS.number := 4%float.
Definition estimatedRoomHeight : JS.number := 0x1.6666666666666p+1%float.
                                              (* the literal [2.8] *)
Definition estimatedRoomDepth : JS.number := 5%float.

Definition widthFit (d : Dimensions) : bool :=
  PrimFloat.leb (width d) estimatedRoomWidth.
Definition heightFit (d : Dimensions) : bool :=
  PrimFloat.leb (height d) estimatedRoomHeight.
Definition depthFit (d : Dimensions) : bool :=
  PrimFloat.leb (depth d) estimatedRoomDepth.

Definition allFit (d : Dimensions) : bool :=
  widthFit d && heightFit d && depthFit d.

Definition spaceUsage (d : Dimensions) : JS.number :=
  JS.Math_max [ (width d / estimatedRoomWidth * 100)%float;
                (height d / estimatedRoomHeight * 100)%float;
                (depth d / estimatedRoomDepth * 100)%float ].

Definition result (d : Dimensions) : FitCheckResult :=
  if negb (allFit d) then
    {| fits := false;
       message := "Object may not fit here - Too large for space";
       icon := warningSign glyphs;
       fit_color := "#ef4444" |}
  else if PrimFloat.ltb 80 (spaceUsage d) then
    {| fits := true;
       message := "Tight fit - Limited space around object";
       icon := highVoltage glyphs;
       fit_color := "#f59e0b" |}
  else if PrimFloat.ltb 60 (spaceUsage d) then
    {| fits := true;
       message := "Good fit - Comfortable space";
       icon := checkMark glyphs;
       fit_color := "#10b981" |}
  else
    {| fits := true;
       message := "Perfect fit - Plenty of space!";
       icon := checkMark glyphs;
       fit_color := "#10b981" |}.

Definition fitCheckEffect : Eff unit :=
  s <- get_state ;;
  match dimensions s with
  | None => ret tt
  | Some d =>
      setFitCheckResult (Some (result d)) ;;
      if hasVibrate env && fits (result d) then emit (Vibrate [50%Z])
      else ret tt
  end.

(** *** [handleARStatus], on [e.detail.status] *)

Definition handleARStatus (status : string) : Eff unit :=
  emit (ConsoleLog ["AR Status:"; status]) ;;
  if String.eqb status "not-presenting" then
    setArStatus idle ;;
    setShowMeasurements false
  else if String.eqb status "session-started" then
    setArStatus session_started ;;
    setShowMeasurements true ;;
    if hasVibrate env then emit (Vibrate [50; 100; 50]%Z) else ret tt
  else if String.eqb status "object-placed" then
    setArStatus placed ;;
    if hasVibrate env then emit (Vibrate [200%Z]) else ret tt
  else if String.eqb status "failed" then
    setArStatus failed ;;
    emit (Alert "AR session failed. Please try again.")
  else ret tt.

(** *** [captureARImage] *)

(** A DOM or URL call of the [try] block: it throws when the browser says
    so, and is recorded when it goes through. *)
Definition call (c : DomCall) (e : Effect) : Eff unit :=
  match fault env c with
  | Some err => throw err
  | None => emit e
  end.

(** [.replace(/[:.]/g, '-')] *)
Fixpoint replaceColonsAndDots (s : string) : string :=
  match s with
  | EmptyString => EmptyString
  | String c r =>
      String (if (Ascii.eqb c ":" || Ascii.eqb c ".")%char then "-"%char
              else c)
             (replaceColonsAndDots r)
  end.

Definition captureARImage : Eff unit :=
  s <- get_state ;;
  match modelViewerRef s with
  | None => emit (Alert "Model viewer not ready")
  | Some modelViewer =>
      try_catch
        (setCaptureStatus "Capturing..." ;;
         blob <- settle (toBlob modelViewer) ;;
         let url := objectURL env blob in
         call CallCreateObjectURL (CreateObjectURL blob url) ;;
         call CallCreateElement (CreateElement "a") ;;
         let timestamp := replaceColonsAndDots (now env) in
         let link :=
           {| href := url;
              download := "ar-product-" ++ timestamp ++ ".png" |} in
         call CallAppendChild (AppendChild link) ;;
         call CallClick (Click link) ;;
         call CallRemoveChild (RemoveChild link) ;;
         call CallRevokeObjectURL (RevokeObjectURL url) ;;
         setCaptureStatus (imageSaved glyphs) ;;
         (if hasVibrate env then emit (Vibrate [50; 50; 50]%Z)
          else ret tt) ;;
         emit (SetTimeout ClearCaptureStatus 2000))
        (fun error =>
           emit (ConsoleError "Capture failed:" error) ;;
           setCaptureStatus (captureFailed glyphs) ;;
           emit (SetTimeout ClearCaptureStatus 2000))
  end.

(** What a timer runs when it fires. *)
Definition runCallback (cb : Callback) : Eff unit :=
  match cb with
  | ClearCaptureStatus => setCaptureStatus ""
  end.

(** *** [handleViewInARClick], [handleConfirmation], [toggleMeasurements] *)

Definition handleViewInARClick : Eff unit :=
  s <- get_state ;;
  if isMobile s then setShowConfirmation true
  else emit (ConsoleLog ["Desktop: QR code displayed automatically"]).

Definition handleConfirmation (allow : bool) : Eff unit :=
  setShowConfirmation false ;;
  if allow then
    s <- get_state ;;
    match modelViewerRef s with
    | Some modelViewer =>
        if canActivateAR modelViewer then
          setArStatus detecting ;;
          emit ActivateAR
        else emit (Alert "AR not available on this device")
    | None => emit (Alert "AR not available on this device")
    end
  else ret tt.

Definition toggleMeasurements : Eff unit :=
  s <- get_state ;;
  setShowMeasurements (negb (showMeasurements s)).

End Component.

(** Viewer events handled one after the other. *)
Fixpoint handleARStatuses (env : Browser) (events : list string) : Eff unit :=
  match events with
  | [] => ret tt
  | status :: rest =>
      handleARStatus env status ;; handleARStatuses env rest
  end.

(** The worlds that "view in AR" requests lead to from [w0]. *)
Inductive reached_by_clicks (w0 : World) : World -> Prop :=
| reached_start : reached_by_clicks w0 w0
| reached_click (w w' : World) (c : Completion unit) :
    reached_by_clicks w0 w ->
    handleViewInARClick w = (c, w') ->
    reached_by_clicks w0 w'.

(** The initial state once the viewer element is stored in
    [modelViewerRef.current]. *)
Definition stateWithViewer (viewer : ModelViewer) : ViewerState := {|
  isMobile := false;
  isIOS := false;
  webXRSupported := false;
  showConfirmation := false;
  customizations := customizations initialState;
  arStatus := idle;
  captureEnabled := true;
  showMeasurements := false;
  dimensions := None;
  fitCheckResult := None;
  customUSDZUrl := "";
  isModelLoaded := true;
  showInstructions := true;
  captureStatus := "";
  modelViewerRef := Some viewer
|}.

(** A browser in which every call goes through, and one in which
    [document.body.appendChild] throws. *)
Definition plainBrowser : Browser := {|
  xr := None;
  hasVibrate := true;
  objectURL := fun _ => "blob:https://example.test/1";
  now := "2024-01-02T03:04:05.678Z";
  fault := fun _ => None
|}.

Definition appendChildThrows : Browser := {|
  xr := None;
  hasVibrate := true;
  objectURL := fun _ => "blob:https://example.test/1";
  now := "2024-01-02T03:04:05.678Z";
  fault := fun c =>
    match c with
    | CallAppendChild => Some "HierarchyRequestError"
    | _ => None
    end
|}.

Definition readyViewer : ModelViewer := {|
  canActivateAR := true;
  toBlob := Normal "PNG"
|}.

(* ------------------------------------------------------------------ *)
(** ** The rest of the component *)

(** *** More state setters *)

Definition setIsMobile (v : bool) : Eff unit :=
  modify (fun s => {|
    isMobile := v; isIOS := isIOS s; webXRSupported := webXRSupported s;
    showConfirmation := showConfirmation s;
    customizations := customizations s; arStatus := arStatus s;
    captureEnabled := captureEnabled s;
    showMeasurements := showMeasurements s; dimensions := dimensions s;
    fitCheckResult := fitCheckResult s; customUSDZUrl := customUSDZUrl s;
    isModelLoaded := isModelLoaded s; showInstructions := showInstructions s;
    captureStatus := captureStatus s; modelViewerRef := modelViewerRef s |}).

Definition setIsIOS (v : bool) : Eff unit :=
  modify (fun s => {|
    isMobile := isMobile s; isIOS := v; webXRSupported := webXRSupported s;
    showConfirmation := showConfirmation s;
    customizations := customizations s; arStatus := arStatus s;
    captureEnabled := captureEnabled s;
    showMeasurements := showMeasurements s; dimensions := dimensions s;
    fitCheckResult := fitCheckResult s; customUSDZUrl := customUSDZUrl s;
    isModelLoaded := isModelLoaded s; showInstructions := showInstructions s;
    captureStatus := captureStatus s; modelViewerRef := modelViewerRef s |}).

Definition setWebXRSupported (v : bool) : Eff unit :=
  modify (fun s => {|
    isMobile := isMobile s; isIOS := isIOS s; webXRSupported := v;
    showConfirmation := showConfirmation s;
    customizations := customizations s; arStatus := arStatus s;
    captureEnabled := captureEnabled s;
    showMeasurements := showMeasurements s; dimensions := dimensions s;
    fitCheckResult := fitCheckResult s; customUSDZUrl := customUSDZUrl s;
    isModelLoaded := isModelLoaded s; showInstructions := showInstructions s;
    captureStatus := captureStatus s; modelViewerRef := modelViewerRef s |}).

Definition setCustomizations (v : Customization) : Eff unit :=
  modify (fun s => {|
    isMobile := isMobile s; isIOS := isIOS s;
    webXRSupported := webXRSupported s;
    showConfirmation := showConfirmation s; customizations := v;
    arStatus := arStatus s; captureEnabled := captureEnabled s;
    showMeasurements := showMeasurements s; dimensions := dimensions s;
    fitCheckResult := fitCheckResult s; customUSDZUrl := customUSDZUrl s;
    isModelLoaded := isModelLoaded s; showInstructions := showInstructions s;
    captureStatus := captureStatus s; modelViewerRef := modelViewerRef s |}).

Definition setCaptureEnabled (v : bool) : Eff unit :=
  modify (fun s => {|
    isMobile := isMobile s; isIOS := isIOS s;
    webXRSupported := webXRSupported s;
    showConfirmation := showConfirmation s;
    customizations := customizations s; arStatus := arStatus s;
    captureEnabled := v; showMeasurements := showMeasurements s;
    dimensions := dimensions s; fitCheckResult := fitCheckResult s;
    customUSDZUrl := customUSDZUrl s; isModelLoaded := isModelLoaded s;
    showInstructions := showInstructions s; captureStatus := captureStatus s;
    modelViewerRef := modelViewerRef s |}).

Definition setCustomUSDZUrl (v : string) : Eff unit :=
  modify (fun s => {|
    isMobile := isMobile s; isIOS := isIOS s;
    webXRSupported := webXRSupported s;
    showConfirmation := showConfirmation s;
    customizations := customizations s; arStatus := arStatus s;
    captureEnabled := captureEnabled s;
    showMeasurements := showMeasurements s; dimensions := dimensions s;
    fitCheckResult := fitCheckResult s; customUSDZUrl := v;
    isModelLoaded := isModelLoaded s; showInstructions := showInstructions s;
    captureStatus := captureStatus s; modelViewerRef := modelViewerRef s |}).

Definition setIsModelLoaded (v : bool) : Eff unit :=
  modify (fun s => {|
    isMobile := isMobile s; isIOS := isIOS s;
    webXRSupported := webXRSupported s;
    showConfirmation := showConfirmation s;
    customizations := customizations s; arStatus := arStatus s;
    captureEnabled := captureEnabled s;
    showMeasurements := showMeasurements s; dimensions := dimensions s;
    fitCheckResult := fitCheckResult s; customUSDZUrl := customUSDZUrl s;
    isModelLoaded := v; showInstructions := showInstructions s;
    captureStatus := captureStatus s; modelViewerRef := modelViewerRef s |}).

Definition setShowInstructions (v : bool) : Eff unit :=
  modify (fun s => {|
    isMobile := isMobile s; isIOS := isIOS s;
    webXRSupported := webXRSupported s;
    showConfirmation := showConfirmation s;
    customizations := customizations s; arStatus := arStatus s;
    captureEnabled := captureEnabled s;
    showMeasurements := showMeasurements s; dimensions := dimensions s;
    fitCheckResult := fitCheckResult s; customUSDZUrl := customUSDZUrl s;
    isModelLoaded := isModelLoaded s; showInstructions := v;
    captureStatus := captureStatus s; modelViewerRef := modelViewerRef s |}).

(** [modelViewerRef.current = v] *)
Definition setModelViewerRef (v : option ModelViewer) : Eff unit :=
  modify (fun s => {|
    isMobile := isMobile s; isIOS := isIOS s;
    webXRSupported := webXRSupported s;
    showConfirmation := showConfirmation s;
    customizations := customizations s; arStatus := arStatus s;
    captureEnabled := captureEnabled s;
    showMeasurements := showMeasurements s; dimensions := dimensions s;
    fitCheckResult := fitCheckResult s; customUSDZUrl := customUSDZUrl s;
    isModelLoaded := isModelLoaded s; showInstructions := showInstructions s;
    captureStatus := captureStatus s; modelViewerRef := v |}).

(** *** [isMobileDevice], [isIOSDevice]

    [RegExp.prototype.test] with a pattern that is an alternation of plain
    words: some word occurs somewhere in the string.  Under the [i] flag
    (without [u]) a character matches a letter of the pattern when both have
    the same upper case, and a character outside ASCII never matches an
    ASCII one; on UTF-8 bytes this is byte-wise ASCII upper-casing. *)

Definition upcase (c : ascii) : ascii :=
  let n := N_of_ascii c in
  if ((97 <=? n) && (n <=? 122))%N then ascii_of_N (n - 32) else c.

Definition sameChar (a b : ascii) : bool := Ascii.eqb a b.

Definition sameCharIgnoreCase (a b : ascii) : bool :=
  Ascii.eqb (upcase a) (upcase b).

(** [word] matches at the start of [s]. *)
Fixpoint matchesAt (same : ascii -> ascii -> bool) (word s : string) : bool :=
  match word, s with
  | EmptyString, _ => true
  | String p word', String c s' => same p c && matchesAt same word' s'
  | String _ _, EmptyString => false
  end.

(** [word] matches somewhere in [s]. *)
Fixpoint occursIn (same : ascii -> ascii -> bool) (word s : string) : bool :=
  matchesAt same word s ||
  match s with
  | EmptyString => false
  | String _ s' => occursIn same word s'
  end.

(** [/Mobi|Android|iPhone|iPad|iPod/i.test(navigator.userAgent)] *)
Definition isMobileDevice (userAgent : string) : bool :=
  existsb (fun word => occursIn sameCharIgnoreCase word userAgent)
          ["Mobi"; "Android"; "iPhone"; "iPad"; "iPod"].

(** [/iPad|iPhone|iPod/.test(navigator.userAgent)] *)
Definition isIOSDevice (userAgent : string) : bool :=
  existsb (fun word => occursIn sameChar word userAgent)
          ["iPad"; "iPhone"; "iPod"].

(** *** [hexToRgb] (welcome.tsx) *)

Module Rgb.
Record t : Type := { r : JS.number; g : JS.number; b : JS.number }.
End Rgb.

(** [[a-f\d]] under the [i] flag, with the digit's value. *)
Definition hexDigit (c : ascii) : option N :=
  let n := N_of_ascii c in
  if ((48 <=? n) && (n <=? 57))%N then Some (n - 48)%N
  else if ((97 <=? n) && (n <=? 102))%N then Some (n - 87)%N
  else if ((65 <=? n) && (n <=? 70))%N then Some (n - 55)%N
  else None.

(** [parseInt(pair, 16)] on a pair of hexadecimal digits. *)
Definition hexPair (hi lo : ascii) : option N :=
  match hexDigit hi, hexDigit lo with
  | Some h, Some l => Some (16 * h + l)%N
  | _, _ => None
  end.

(** [n / 255] for an integer [n]. *)
Definition channel (n : N) : JS.number :=
  (PrimFloat.of_uint63 (Uint63.of_Z (Z.of_N n)) / 255)%float.

(** [/^#?([a-f\d]{2})([a-f\d]{2})([a-f\d]{2})$/i.exec(hex)], then the three
    groups as channels. *)
Definition hexToRgb (hex : string) : option Rgb.t :=
  let digits :=
    match hex with
    | String "#"%char rest => rest
    | _ => hex
    end in
  match digits with
  | String r1 (String r2 (String g1 (String g2 (String b1 (String b2
      EmptyString))))) =>
      match hexPair r1 r2, hexPair g1 g2, hexPair b1 b2 with
      | Some r, Some g, Some b =>
          Some {| Rgb.r := channel r; Rgb.g := channel g;
                  Rgb.b := channel b |}
      | _, _, _ => None
      end
  | _ => None
  end.

(** *** The iOS model URL ([useEffect] on [isIOS] and [customizations]) *)

(** The characters [encodeURIComponent] leaves alone:
    [A-Z a-z 0-9 - _ . ! ~ * ' ( )]. *)
Definition isUnreserved (c : ascii) : bool :=
  let n := N_of_ascii c in
  ((65 <=? n) && (n <=? 90) || (97 <=? n) && (n <=? 122)
   || (48 <=? n) && (n <=? 57)
   || (n =? 45) || (n =? 95) || (n =? 46) || (n =? 33) || (n =? 126)
   || (n =? 42) || (n =? 39) || (n =? 40) || (n =? 41))%N.

Definition upperHexDigit (n : N) : ascii :=
  if (n <? 10)%N then ascii_of_N (48 + n) else ascii_of_N (55 + n).

(** [encodeURIComponent] on the UTF-8 bytes of a well-formed string: every
    other byte becomes [%XX]. *)
Fixpoint encodeURIComponent (s : string) : string :=
  match s with
  | EmptyString => EmptyString
  | String c rest =>
      if isUnreserved c then String c (encodeURIComponent rest)
      else
        let n := N_of_ascii c in
        String "%"%char
          (String (upperHexDigit (n / 16))
             (String (upperHexDigit (n mod 16)) (encodeURIComponent rest)))
  end.

Section ModelUrl.

(** [BASE_USDZ_URL], which differs between the two files, and the string
    a template literal makes of a number ([Number::toString]). *)
Variable BASE_USDZ_URL : string.
Variable numberToString : JS.number -> string.

Definition customUrlEffect : Eff unit :=
  s <- get_state ;;
  let customizations := customizations s in
  if isIOS s && negb (String.eqb (color customizations) "#FFFFFF") then
    let customUrl :=
      BASE_USDZ_URL ++ "?color=" ++ encodeURIComponent (color customizations)
      ++ "&scale=" ++ numberToString (scale customizations) in
    setCustomUSDZUrl customUrl
  else setCustomUSDZUrl BASE_USDZ_URL.

(** [ios-src={customUSDZUrl || BASE_USDZ_URL}] *)
Definition iosSrc (s : ViewerState) : string :=
  JS.or_else (Some (customUSDZUrl s)) BASE_USDZ_URL.

End ModelUrl.

Definition welcome_BASE_USDZ_URL : string :=
  "https://modelviewer.dev/shared-assets/models/Astronaut.usdz".

Definition part_000_BASE_USDZ_URL : string := "/public/sofa_v4.usdz".

(* ------------------------------------------------------------------ *)
(** ** The page around the component

    [initialize] and [handleModelLoad] also act on the document and start a
    timer whose callback is not a capture callback; a [Page] adds the
    document's elements and these timers to the component's world. *)

(** The callbacks the page registers. *)
Inductive PageCallback : Type :=
| LogViewerLoaded     (* [() => console.log('Model Viewer loaded ...')] *)
| HideInstructions.   (* [() => setShowInstructions(false)] *)

(** An element of the document, by the attributes the component reads or
    sets. *)
Record Element : Type := {
  tagName : string;
  elementId : string;
  src : string;
  scriptType : string;
  onload : option PageCallback
}.

Record Page : Type := {
  component : World;
  document : list Element;
  timers : list (PageCallback * Z)
}.

(** What [navigator] and [window.location] answer. *)
Record Location : Type := {
  userAgent : string;
  search : JS.URLSearchParams
}.

Definition PageEff (A : Type) : Type := Page -> Completion A * Page.

Definition pret {A} (a : A) : PageEff A := fun p => (Normal a, p).

Definition pbind {A B} (c : PageEff A) (k : A -> PageEff B) : PageEff B :=
  fun p =>
    match c p with
    | (Normal a, p') => k a p'
    | (Throw e, p') => (Throw e, p')
    end.

(** A component computation, run on the page's component. *)
Definition lift {A} (c : Eff A) : PageEff A :=
  fun p =>
    let '(r, w) := c (component p) in
    (r, {| component := w; document := document p; timers := timers p |}).

Declare Scope page_scope.
Delimit Scope page_scope with page.
Notation "x <- c ;; k" := (pbind c (fun x => k))
  (at level 61, c at next level, right associativity) : page_scope.
Notation "c ;; k" := (pbind c (fun _ => k))
  (at level 61, right associativity) : page_scope.

(** [document.getElementById(id)] *)
Definition getElementById (doc : list Element) (id : string)
  : option Element :=
  find (fun el => String.eqb (elementId el) id) doc.

(** [document.head.appendChild(el)], which throws when the browser says
    so. *)
Definition appendToHead (env : Browser) (el : Element) : PageEff unit :=
  fun p =>
    match fault env CallAppendChild with
    | Some err => (Throw err, p)
    | None =>
        (Normal tt,
         {| component := component p;
            document := document p ++ [el];
            timers := timers p |})
    end.

(** [setTimeout(cb, ms)] with a page callback. *)
Definition setPageTimeout (cb : PageCallback) (ms : Z) : PageEff unit :=
  fun p =>
    (Normal tt,
     {| component := component p;
        document := document p;
        timers := timers p ++ [(cb, ms)] |}).

Definition scriptId : string := "model-viewer-script".

Definition modelViewerScript : Element := {|
  tagName := "script";
  elementId := scriptId;
  src := "https://ajax.googleapis.com/ajax/libs/model-viewer/3.4.0/model-viewer.min.js";
  scriptType := "module";
  onload := Some LogViewerLoaded
|}.

(** [initialize], the body of the mount effect.  The script element ends
    with its [onload] set, the assignment following [appendChild] on the
    same object. *)
Definition initialize (loc : Location) (env : Browser) : PageEff unit :=
  (let mobile := isMobileDevice (userAgent loc) in
   let ios := isIOSDevice (userAgent loc) in
   webXR <- lift (supportsWebXR env) ;;
   lift (setIsMobile mobile) ;;
   lift (setIsIOS ios) ;;
   lift (setWebXRSupported webXR) ;;
   lift (setCustomizations (parseUrlParams (search loc))) ;;
   fun p =>
     match getElementById (document p) scriptId with
     | Some _ => (Normal tt, p)
     | None =>
         (lift (call env CallCreateElement (CreateElement "script")) ;;
          appendToHead env modelViewerScript) p
     end)%page.

(** [handleModelLoad] of part_000, on [e.target]. *)
Definition handleModelLoad (target : ModelViewer) : PageEff unit :=
  (lift (emit (ConsoleLog ["Model loaded"])) ;;
   lift (setIsModelLoaded true) ;;
   lift (setCaptureEnabled true) ;;
   lift (setModelViewerRef (Some target)) ;;
   setPageTimeout HideInstructions 5000)%page.

Definition runPageCallback (cb : PageCallback) : PageEff unit :=
  match cb with
  | LogViewerLoaded =>
      lift (emit (ConsoleLog ["Model Viewer loaded successfully"]))
  | HideInstructions => lift (setShowInstructions false)
  end.

(** *** What can happen to the page of part_000

    The viewer's events, the clicks the rendered markup offers, the effects
    React runs and the callbacks that were registered. *)
Inductive PageEvent : Type :=
| Mount                                   (* the mount effect *)
| ViewerLoad (target : ModelViewer)       (* [onLoad] *)
| ViewerARStatus (status : string)        (* [onAr-status] *)
| ClickCapture
| ClickToggleMeasurements
| ClickViewInAR
| ClickConfirm (allow : bool)
| ClickCloseInstructions
| RunCustomUrlEffect
| RunFitCheckEffect
| TimerFires (cb : Callback)
| PageTimerFires (cb : PageCallback)
| ScriptLoads (cb : PageCallback).

Definition isSome {A} (o : option A) : bool :=
  match o with
  | Some _ => true
  | None => false
  end.

Definition callbackEqb (a b : PageCallback) : bool :=
  match a, b with
  | LogViewerLoaded, LogViewerLoaded => true
  | HideInstructions, HideInstructions => true
  | _, _ => false
  end.

(** The markup renders the capture button under [captureEnabled] and
    disables it until [isModelLoaded]; the measurements toggle under
    [dimensions]; the AR button under [isMobile]; the two confirmation
    buttons under [showConfirmation]; the close button under
    [showInstructions].  A callback can run once it is registered; that it
    runs once only, like the mount effect, is not imposed here, which adds
    runs and removes none. *)
Definition offered (p : Page) (ev : PageEvent) : bool :=
  let s := state (component p) in
  match ev with
  | Mount | ViewerLoad _ | ViewerARStatus _ => true
  | RunCustomUrlEffect | RunFitCheckEffect => true
  | ClickCapture => captureEnabled s && isModelLoaded s
  | ClickToggleMeasurements => isSome (dimensions s)
  | ClickViewInAR => isMobile s
  | ClickConfirm _ => showConfirmation s
  | ClickCloseInstructions => showInstructions s
  | TimerFires cb =>
      existsb (fun e => match e with
                        | SetTimeout cb' _ =>
                            match cb, cb' with
                            | ClearCaptureStatus, ClearCaptureStatus => true
                            end
                        | _ => false
                        end)
              (trace (component p))
  | PageTimerFires cb =>
      existsb (fun t => callbackEqb cb (fst t)) (timers p)
  | ScriptLoads cb =>
      existsb (fun el => match onload el with
                         | Some cb' => callbackEqb cb cb'
                         | None => false
                         end)
              (document p)
  end.

Section PageOfPart000.

Variable loc : Location.
Variable env : Browser.
Variable glyphs : Glyphs.
Variable numberToString : JS.number -> string.

Definition handleEvent (ev : PageEvent) : PageEff unit :=
  match ev with
  | Mount => initialize loc env
  | ViewerLoad target => handleModelLoad target
  | ViewerARStatus status => lift (handleARStatus env status)
  | ClickCapture => lift (captureARImage env glyphs)
  | ClickToggleMeasurements => lift toggleMeasurements
  | ClickViewInAR => lift handleViewInARClick
  | ClickConfirm allow => lift (handleConfirmation allow)
  | ClickCloseInstructions => lift (setShowInstructions false)
  | RunCustomUrlEffect =>
      lift (customUrlEffect part_000_BASE_USDZ_URL numberToString)
  | RunFitCheckEffect => lift (fitCheckEffect env glyphs)
  | TimerFires cb => lift (runCallback cb)
  | PageTimerFires cb => runPageCallback cb
  | ScriptLoads cb => runPageCallback cb
  end.

(** The pages reached from [p0] by offered events. *)
Inductive reaches (p0 : Page) : Page -> Prop :=
| reaches_start : reaches p0 p0
| reaches_step (p p' : Page) (ev : PageEvent) (c : Completion unit) :
    reaches p0 p ->
    offered p ev = true ->
    handleEvent ev p = (c, p') ->
    reaches p0 p'.

End PageOfPart000.

(** The page before the mount effect runs, over a document. *)
Definition initialPage (doc : list Element) : Page := {|
  component := {| state := initialState; trace := [] |};
  document := doc;
  timers := []
|}.

Definition iPhoneLocation : Location := {|
  userAgent :=
    "Mozilla/5.0 (iPhone; CPU iPhone OS 17_0 like Mac OS X) AppleWebKit/605.1.15 (KHTML, like Gecko) Version/17.0 Mobile/15E148 Safari/604.1";
  search := [("color", "#ff0000"); ("scale", "1.5")]
|}.

Definition desktopLocation : Location := {|
  userAgent :=
    "Mozilla/5.0 (X11; Linux x86_64) AppleWebKit/537.36 (KHTML, like Gecko) Chrome/120.0.0.0 Safari/537.36";
  search := []
|}.

(** *** Notions used to state properties *)

(** ASCII upper-casing of a whole string. *)
Fixpoint upcaseString (s : string) : string :=
  match s with
  | EmptyString => EmptyString
  | String c rest => String (upcase c) (upcaseString rest)
  end.

(** Every byte of the string satisfies [ok]. *)
Fixpoint allChars (ok : ascii -> bool) (s : string) : bool :=
  match s with
  | EmptyString => true
  | String c rest => ok c && allChars ok rest
  end.

Definition isHexDigit (c : ascii) : bool := isSome (hexDigit c).

(** The four parameter names [parseUrlParams] reads. *)
Definition knownParam (name : string) : bool :=
  String.eqb name "color" || String.eqb name "scale"
  || String.eqb name "pattern" || String.eqb name "material".

(** The state [s] with one cell replaced: [s' = with_x v s] says that [s']
    agrees with [s] on every other cell. *)
Definition with_showConfirmation (v : bool) (s : ViewerState) : ViewerState := {|
  isMobile := isMobile s; isIOS := isIOS s;
  webXRSupported := webXRSupported s; showConfirmation := v;
  customizations := customizations s; arStatus := arStatus s;
  captureEnabled := captureEnabled s; showMeasurements := showMeasurements s;
  dimensions := dimensions s; fitCheckResult := fitCheckResult s;
  customUSDZUrl := customUSDZUrl s; isModelLoaded := isModelLoaded s;
  showInstructions := showInstructions s; captureStatus := captureStatus s;
  modelViewerRef := modelViewerRef s |}.

Definition with_arStatus (v : ARStatus) (s : ViewerState) : ViewerState := {|
  isMobile := isMobile s; isIOS := isIOS s;
  webXRSupported := webXRSupported s; showConfirmation := showConfirmation s;
  customizations := customizations s; arStatus := v;
  captureEnabled := captureEnabled s; showMeasurements := showMeasurements s;
  dimensions := dimensions s; fitCheckResult := fitCheckResult s;
  customUSDZUrl := customUSDZUrl s; isModelLoaded := isModelLoaded s;
  showInstructions := showInstructions s; captureStatus := captureStatus s;
  modelViewerRef := modelViewerRef s |}.

Definition with_showMeasurements (v : bool) (s : ViewerState) : ViewerState := {|
  isMobile := isMobile s; isIOS := isIOS s;
  webXRSupported := webXRSupported s; showConfirmation := showConfirmation s;
  customizations := customizations s; arStatus := arStatus s;
  captureEnabled := captureEnabled s; showMeasurements := v;
  dimensions := dimensions s; fitCheckResult := fitCheckResult s;
  customUSDZUrl := customUSDZUrl s; isModelLoaded := isModelLoaded s;
  showInstructions := showInstructions s; captureStatus := captureStatus s;
  modelViewerRef := modelViewerRef s |}.

Definition with_fitCheckResult (v : option FitCheckResult) (s : ViewerState) : ViewerState := {|
  isMobile := isMobile s; isIOS := isIOS s;
  webXRSupported := webXRSupported s; showConfirmation := showConfirmation s;
  customizations := customizations s; arStatus := arStatus s;
  captureEnabled := captureEnabled s; showMeasurements := showMeasurements s;
  dimensions := dimensions s; fitCheckResult := v;
  customUSDZUrl := customUSDZUrl s; isModelLoaded := isModelLoaded s;
  showInstructions := showInstructions s; captureStatus := captureStatus s;
  modelViewerRef := modelViewerRef s |}.

Definition with_captureStatus (v : string) (s : ViewerState) : ViewerState := {|
  isMobile := isMobile s; isIOS := isIOS s;
  webXRSupported := webXRSupported s; showConfirmation := showConfirmation s;
  customizations := customizations s; arStatus := arStatus s;
  captureEnabled := captureEnabled s; showMeasurements := showMeasurements s;
  dimensions := dimensions s; fitCheckResult := fitCheckResult s;
  customUSDZUrl := customUSDZUrl s; isModelLoaded := isModelLoaded s;
  showInstructions := showInstructions s; captureStatus := v;
  modelViewerRef := modelViewerRef s |}.

Definition with_customUSDZUrl (v : string) (s : ViewerState) : ViewerState := {|
  isMobile := isMobile s; isIOS := isIOS s;
  webXRSupported := webXRSupported s; showConfirmation := showConfirmation s;
  customizations := customizations s; arStatus := arStatus s;
  captureEnabled := captureEnabled s; showMeasurements := showMeasurements s;
  dimensions := dimensions s; fitCheckResult := fitCheckResult s;
  customUSDZUrl := v; isModelLoaded := isModelLoaded s;
  showInstructions := showInstructions s; captureStatus := captureStatus s;
  modelViewerRef := modelViewerRef s |}.

Definition isSetTimeout (e : Effect) : bool :=
  match e with
  | SetTimeout _ _ => true
  | _ => false
  end.

Definition isClick (e : Effect) : bool :=
  match e with
  | Click _ => true
  | _ => false
  end.

Definition isColonOrDot (c : ascii) : bool :=
  (Ascii.eqb c ":" || Ascii.eqb c ".")%char.

(** The desktop page after the mount effect, in a browser where every call
    goes through. *)
Definition desktopMounted : Page :=
  snd (initialize desktopLocation plainBrowser (initialPage [])).

(** The same page once the viewer reported its load. *)
Definition desktopLoaded : Page :=
  snd (handleModelLoad readyViewer desktopMounted).

(** The page of an iPhone after the mount effect. *)
Definition iPhoneMounted : Page :=
  snd (initialize iPhoneLocation plainBrowser (initialPage [])).

(** A browser without [navigator.vibrate], and its desktop page after the
    mount effect and a session-started event. *)
Definition silentBrowser : Browser := {|
  xr := Some (Rejects "NotSupportedError");
  hasVibrate := false;
  objectURL := fun _ => "blob:https://example.test/1";
  now := "2024-01-02T03:04:05.678Z";
  fault := fun _ => None
|}.

Definition silentSession : Page :=
  snd (lift (handleARStatus silentBrowser "session-started")
         (snd (initialize desktopLocation silentBrowser (initialPage [])))).

(** *** The order of binary64 values, read on integers

    A value that is not [NaN] is ranked by a triple compared
    lexicographically: its class (-2 for [-Infinity], -1 for a negative
    number, 0 for both zeros, 1 for a positive number, 2 for [+Infinity]),
    then exponent and mantissa, negated for negative numbers. *)
Definition rank (x : spec_float) : Z * Z * Z :=
  match x with
  | S754_nan => (0, 0, 0)%Z
  | S754_zero _ => (0, 0, 0)%Z
  | S754_infinity true => (-2, 0, 0)%Z
  | S754_infinity false => (2, 0, 0)%Z
  | S754_finite true m e => (-1, - e, - Zpos m)%Z
  | S754_finite false m e => (1, e, Zpos m)%Z
  end.

Definition lex_lt (p q : Z * Z * Z) : Prop :=
  let '(a, b, c) := p in
  let '(a', b', c') := q in
  (a < a' \/ a = a' /\ (b < b' \/ b = b' /\ c < c'))%Z.

Definition lex_le (p q : Z * Z * Z) : Prop := lex_lt p q \/ p = q.

(* ------------------------------------------------------------------ *)
(** ** Sample evaluations *)

Example parseFloat_samples :
  JS.parseFloat "1.0" = 1%float /\
  JS.parseFloat "  3.5xyz" = 3.5%float /\
  JS.parseFloat "0.1" = 0x1.999999999999ap-4%float /\
  JS.parseFloat "2.8" = 0x1.6666666666666p+1%float /\
  JS.parseFloat "-.5e1" = (-5)%float /\
  JS.parseFloat "1e400" = infinity /\
  JS.parseFloat "-Infinityx" = neg_infinity /\
  JS.parseFloat "1e-400" = 0%float /\
  JS.parseFloat "4.9e-324" = 0x1p-1074%float /\
  JS.parseFloat "1.7976931348623157e308" = 0x1.fffffffffffffp+1023%float /\
  JS.parseFloat "9007199254740993" = 9007199254740992%float /\
  JS.parseFloat "7e" = 7%float /\
  JS.parseFloat "abc" = nan /\
  JS.parseFloat "." = nan /\
  JS.parseFloat "+" = nan /\
  JS.parseFloat "" = nan.
Proof. vm_compute. repeat split. Qed.

Example Math_max_samples :
  JS.Math_max [87.5; 71.5; 60]%float = 87.5%float /\
  JS.Math_max [] = neg_infinity /\
  JS.Math_max [1; nan; 3]%float = nan /\
  JS.Math_max [-0; 0]%float = 0%float.
Proof. vm_compute. repeat split. Qed.

(* ------------------------------------------------------------------ *)
(** ** Order facts on binary64 values *)

Module FloatOrder.

Lemma SFcompare_antisym (x y : spec_float) :
  SFcompare y x = option_map CompOpp (SFcompare x y).
Proof.
  destruct x as [sx | sx | | sx mx ex], y as [sy | sy | | sy my ey];
    try destruct sx; try destruct sy; try reflexivity; simpl.
  - rewrite (Z.compare_antisym ex ey).
    destruct (ex ?= ey)%Z; simpl; try reflexivity.
    rewrite (Pos.compare_cont_antisym mx my Eq). reflexivity.
  - rewrite (Z.compare_antisym ex ey).
    destruct (ex ?= ey)%Z; simpl; try reflexivity.
    rewrite (Pos.compare_cont_antisym mx my Eq). reflexivity.
Qed.

(** [x < y] excludes [y <= x]. *)
Lemma ltb_not_leb (x y : float) :
  PrimFloat.ltb x y = true -> PrimFloat.leb y x = false.
Proof.
  rewrite ltb_spec, leb_spec. unfold SFltb, SFleb.
  rewrite (SFcompare_antisym (Prim2SF x) (Prim2SF y)).
  destruct (SFcompare (Prim2SF x) (Prim2SF y)) as [[ | | ] | ];
    simpl; congruence.
Qed.

(** [x <= y] excludes [y < x]. *)
Lemma leb_not_ltb (x y : float) :
  PrimFloat.leb x y = true -> PrimFloat.ltb y x = false.
Proof.
  rewrite ltb_spec, leb_spec. unfold SFltb, SFleb.
  rewrite (SFcompare_antisym (Prim2SF x) (Prim2SF y)).
  destruct (SFcompare (Prim2SF x) (Prim2SF y)) as [[ | | ] | ];
    simpl; congruence.
Qed.

Lemma Prim2SF_60 : Prim2SF 60 = S754_finite false 8444249301319680 (-47).
Proof. vm_compute. reflexivity. Qed.

Lemma Prim2SF_80 : Prim2SF 80 = S754_finite false 5629499534213120 (-46).
Proof. vm_compute. reflexivity. Qed.

(** A value that is at most 60 is not above 80. *)
Lemma leb_60_not_above_80 (u : float) :
  PrimFloat.leb u 60 = true -> PrimFloat.ltb 80 u = false.
Proof.
  rewrite ltb_spec, leb_spec, Prim2SF_60, Prim2SF_80.
  destruct (Prim2SF u) as [s | s | | s m e];
    unfold SFltb, SFleb, SFcompare.
  - congruence.
  - destruct s; congruence.
  - congruence.
  - destruct s; try reflexivity.
    destruct (Z.compare_spec e (-47)), (Z.compare_spec (-46) e);
      try reflexivity; try congruence; lia.
Qed.

Lemma nan_not_one : nan <> 1%float.
Proof.
  intro H. apply (f_equal PrimFloat.is_nan) in H. vm_compute in H.
  discriminate H.
Qed.

End FloatOrder.

(* ------------------------------------------------------------------ *)
(** ** The order of binary64 values on ranks, rounding, [Math.max] *)

Module FloatRank.

Ltac compare_cases :=
  repeat match goal with
  | |- context [Z.compare ?a ?b] => destruct (Z.compare_spec a b)
  | |- context [Pos.compare_cont Eq ?a ?b] =>
      change (Pos.compare_cont Eq a b) with (Pos.compare a b);
      destruct (Pos.compare_spec a b)
  end.

Lemma SFltb_rank (x y : spec_float) :
  SFltb x y = true <->
  x <> S754_nan /\ y <> S754_nan /\ lex_lt (rank x) (rank y).
Proof.
  unfold SFltb, SFcompare, lex_lt, rank.
  destruct x as [sx | sx | | sx mx ex], y as [sy | sy | | sy my ey];
    try destruct sx; try destruct sy; cbn;
    compare_cases; cbn;
    (split; [intro Hmain; try discriminate Hmain;
             repeat split; try discriminate; lia
            | intros [Hx [Hy Hmain]]; try congruence; try reflexivity;
              exfalso; lia]).
Qed.

Lemma SFleb_rank (x y : spec_float) :
  SFleb x y = true <->
  x <> S754_nan /\ y <> S754_nan /\ lex_le (rank x) (rank y).
Proof.
  unfold SFleb, SFcompare, lex_le, lex_lt, rank.
  destruct x as [sx | sx | | sx mx ex], y as [sy | sy | | sy my ey];
    try destruct sx; try destruct sy; cbn;
    compare_cases; cbn;
    (split; [intro Hmain; try discriminate Hmain;
             repeat split; try discriminate;
             first [ left; lia | right; congruence | right; f_equal; f_equal; lia ]
            | intros [Hx [Hy [Hmain | Hmain]]]; try congruence; try reflexivity;
              exfalso; first [ lia | injection Hmain; intros; lia ]]).
Qed.

End FloatRank.

Module FloatFacts.

(** *** [NaN] and the order, on primitive floats *)

Lemma not_nan_iff (x : float) :
  PrimFloat.is_nan x = false <-> Prim2SF x <> S754_nan.
Proof.
  unfold PrimFloat.is_nan. rewrite eqb_spec. unfold SFeqb, SFcompare.
  destruct (Prim2SF x) as [s | s | | s m e]; cbn.
  - split; [discriminate | reflexivity].
  - destruct s; (split; [discriminate | reflexivity]).
  - split; [discriminate | congruence].
  - rewrite Z.compare_refl, Pos.compare_cont_refl.
    destruct s; (split; [discriminate | reflexivity]).
Qed.

Lemma ltb_rank (x y : float) :
  PrimFloat.ltb x y = true <->
  PrimFloat.is_nan x = false /\ PrimFloat.is_nan y = false /\
  lex_lt (rank (Prim2SF x)) (rank (Prim2SF y)).
Proof. now rewrite ltb_spec, FloatRank.SFltb_rank, !not_nan_iff. Qed.

Lemma leb_rank (x y : float) :
  PrimFloat.leb x y = true <->
  PrimFloat.is_nan x = false /\ PrimFloat.is_nan y = false /\
  lex_le (rank (Prim2SF x)) (rank (Prim2SF y)).
Proof. now rewrite leb_spec, FloatRank.SFleb_rank, !not_nan_iff. Qed.

Lemma ltb_false_rank (x y : float) :
  PrimFloat.is_nan x = false -> PrimFloat.is_nan y = false ->
  PrimFloat.ltb x y = false ->
  lex_le (rank (Prim2SF y)) (rank (Prim2SF x)).
Proof.
  intros Hx Hy H.
  assert (Hn : ~ lex_lt (rank (Prim2SF x)) (rank (Prim2SF y))).
  { intro Hlt.
    assert (PrimFloat.ltb x y = true) by (apply ltb_rank; auto).
    congruence. }
  unfold lex_le, lex_lt in *.
  destruct (rank (Prim2SF x)) as [[a b] c], (rank (Prim2SF y)) as [[a' b'] c'].
  destruct (Z.compare_spec a a'), (Z.compare_spec b b'),
    (Z.compare_spec c c'); subst;
    first [ right; reflexivity | left; lia | exfalso; apply Hn; lia ].
Qed.

Lemma lex_le_refl (p : Z * Z * Z) : lex_le p p.
Proof. now right. Qed.

Lemma lex_le_trans (p q r : Z * Z * Z) :
  lex_le p q -> lex_le q r -> lex_le p r.
Proof.
  unfold lex_le, lex_lt.
  destruct p as [[a b] c], q as [[a' b'] c'], r as [[a'' b''] c''].
  intros [H1 | H1] [H2 | H2];
    try (injection H1 as -> -> ->); try (injection H2 as -> -> ->);
    first [ right; reflexivity | left; lia ].
Qed.

Lemma lex_lt_le_trans (p q r : Z * Z * Z) :
  lex_lt p q -> lex_le q r -> lex_lt p r.
Proof.
  unfold lex_le, lex_lt.
  destruct p as [[a b] c], q as [[a' b'] c'], r as [[a'' b''] c''].
  intros H1 [H2 | H2]; try (injection H2 as -> -> ->); lia.
Qed.

Lemma lex_le_lt_trans (p q r : Z * Z * Z) :
  lex_le p q -> lex_lt q r -> lex_lt p r.
Proof.
  unfold lex_le, lex_lt.
  destruct p as [[a b] c], q as [[a' b'] c'], r as [[a'' b''] c''].
  intros [H1 | H1] H2; try (injection H1 as -> -> ->); lia.
Qed.

(** [t < x] and [x <= y] give [t < y]. *)
Lemma ltb_leb_trans (t x y : float) :
  PrimFloat.ltb t x = true -> PrimFloat.leb x y = true ->
  PrimFloat.ltb t y = true.
Proof.
  rewrite !ltb_rank, leb_rank. intros [Ht [Hx H1]] [_ [Hy H2]].
  repeat split; try assumption. now apply lex_lt_le_trans with (2 := H2).
Qed.

(** *** Rounding never yields [NaN] *)

Lemma iter_pos_invariant {A : Type} (P : A -> Prop) (f : A -> A) :
  (forall x, P x -> P (f x)) ->
  forall p x, P x -> P (iter_pos f p x).
Proof.
  intros Hf p. induction p as [p IH | p IH | ]; intros x Hx; cbn; auto.
Qed.

Lemma shr_1_nonneg (mrs : shr_record) :
  (0 <= shr_m mrs)%Z -> (0 <= shr_m (shr_1 mrs))%Z.
Proof.
  destruct mrs as [m r s]. cbn.
  destruct m as [ | [p | p | ] | p]; cbn; lia.
Qed.

Lemma shr_nonneg (mrs : shr_record) (e n : Z) :
  (0 <= shr_m mrs)%Z -> (0 <= shr_m (fst (shr mrs e n)))%Z.
Proof.
  intro H. unfold shr. destruct n; cbn; try assumption.
  apply (iter_pos_invariant (fun r => (0 <= shr_m r)%Z)); [ | assumption].
  exact shr_1_nonneg.
Qed.

Lemma shr_fexp_nonneg (m e : Z) (l : location) :
  (0 <= m)%Z -> (0 <= shr_m (fst (shr_fexp prec emax m e l)))%Z.
Proof.
  intro H. unfold shr_fexp. apply shr_nonneg.
  destruct l as [ | []]; exact H.
Qed.

Lemma round_nearest_even_nonneg (m : Z) (l : location) :
  (0 <= m)%Z -> (0 <= round_nearest_even m l)%Z.
Proof.
  intro H. unfold round_nearest_even.
  destruct l as [ | []]; try destruct (Z.even m); lia.
Qed.

Lemma binary_round_aux_not_nan (s : bool) (m e : Z) (l : location) :
  (0 <= m)%Z -> binary_round_aux prec emax s m e l <> S754_nan.
Proof.
  intro H. unfold binary_round_aux.
  pose proof (shr_fexp_nonneg m e l H) as H1.
  destruct (shr_fexp prec emax m e l) as [mrs' e']. cbn in H1.
  pose proof (shr_fexp_nonneg _ e' loc_Exact
                (round_nearest_even_nonneg _ (loc_of_shr_record mrs') H1))
    as H2.
  destruct (shr_fexp prec emax
              (round_nearest_even (shr_m mrs') (loc_of_shr_record mrs'))
              e' loc_Exact) as [mrs'' e''].
  cbn in H2. destruct (shr_m mrs''); [discriminate | | lia].
  destruct (e'' <=? emax - prec)%Z; discriminate.
Qed.

Lemma SFmul_not_nan (x : spec_float) (sy : bool) (my : positive) (ey : Z) :
  x <> S754_nan ->
  SFmul prec emax x (S754_finite sy my ey) <> S754_nan.
Proof.
  intro Hx. destruct x as [sx | sx | | sx mx ex]; cbn;
    try discriminate; [congruence | ].
  apply binary_round_aux_not_nan. lia.
Qed.

Lemma SFdiv_not_nan (x : spec_float) (sy : bool) (my : positive) (ey : Z) :
  x <> S754_nan ->
  SFdiv prec emax x (S754_finite sy my ey) <> S754_nan.
Proof.
  intro Hx. destruct x as [sx | sx | | sx mx ex]; cbn;
    try discriminate; [congruence | ].
  unfold SFdiv_core_binary.
  set (s := (ex - ey
             - Z.min (fexp prec emax
                        (Zdigits2 (Zpos mx) + ex - (Zdigits2 (Zpos my) + ey)))
                     (ex - ey))%Z).
  set (m' := match s with
             | Zpos _ => Z.shiftl (Zpos mx) s
             | Z0 => Zpos mx
             | Zneg _ => 0%Z
             end).
  assert (Hm' : (0 <= m')%Z).
  { unfold m'. destruct s; try lia. apply Z.shiftl_nonneg. lia. }
  pose proof (Z_div_mod m' (Zpos my) eq_refl) as Hdiv.
  destruct (Z.div_eucl m' (Zpos my)) as [q r].
  apply binary_round_aux_not_nan. nia.
Qed.

(** [x / c * k] is a number when [x] is one and [c], [k] are finite and not
    zero. *)
Lemma ratio_not_nan (x c k : float) :
  (exists s m e, Prim2SF c = S754_finite s m e) ->
  (exists s m e, Prim2SF k = S754_finite s m e) ->
  PrimFloat.is_nan x = false ->
  PrimFloat.is_nan (x / c * k) = false.
Proof.
  intros [sc [mc [ec Hc]]] [sk [mk [ek Hk]]] Hx.
  apply not_nan_iff in Hx. apply not_nan_iff.
  rewrite mul_spec, div_spec, Hc, Hk.
  now apply SFmul_not_nan, SFdiv_not_nan.
Qed.

(** *** [Math.max] of three numbers *)

Lemma rank_neg_infinity_least (x : float) :
  PrimFloat.is_nan x = false ->
  lex_le (rank (Prim2SF neg_infinity)) (rank (Prim2SF x)).
Proof.
  intro Hx. apply not_nan_iff in Hx.
  change (Prim2SF neg_infinity) with (S754_infinity true).
  unfold lex_le, lex_lt, rank.
  destruct (Prim2SF x) as [s | s | | s m e]; try destruct s;
    first [ congruence | right; reflexivity | left; lia ].
Qed.

Lemma rank_least_is_neg_infinity (x : float) :
  PrimFloat.is_nan x = false ->
  lex_le (rank (Prim2SF x)) (rank (Prim2SF neg_infinity)) ->
  x = neg_infinity.
Proof.
  intros Hx H. apply not_nan_iff in Hx. apply Prim2SF_inj.
  change (Prim2SF neg_infinity) with (S754_infinity true) in *.
  unfold lex_le, lex_lt, rank in H.
  destruct (Prim2SF x) as [s | s | | s m e]; try destruct s;
    try congruence; exfalso;
    destruct H as [H | H]; first [ lia | discriminate H ].
Qed.

(** One round of [max_from] on numbers: the new highest value is the old
    one or the argument, and is at least both. *)
Lemma max_step (h x : float) :
  PrimFloat.is_nan h = false -> PrimFloat.is_nan x = false ->
  let h1 := match PrimFloat.classify x, PrimFloat.classify h with
            | PZero, NZero => x
            | _, _ => h
            end in
  let h' := if PrimFloat.ltb h1 x then x else h1 in
  (h' = h \/ h' = x) /\
  PrimFloat.is_nan h' = false /\
  lex_le (rank (Prim2SF h)) (rank (Prim2SF h')) /\
  lex_le (rank (Prim2SF x)) (rank (Prim2SF h')).
Proof.
  intros Hh Hx h1 h'.
  assert (H1 : (h1 = h \/ h1 = x) /\ PrimFloat.is_nan h1 = false /\
               rank (Prim2SF h1) = rank (Prim2SF h)).
  { unfold h1.
    destruct (PrimFloat.classify x) eqn:Cx; try (now repeat split; auto).
    destruct (PrimFloat.classify h) eqn:Ch; try (now repeat split; auto).
    repeat split; auto.
    rewrite classify_spec in Cx, Ch.
    destruct (Prim2SF x) as [sx | sx | | sx mx ex];
      try destruct sx; cbn in Cx; try discriminate Cx;
      try (match type of Cx with
           | context [if ?b then _ else _] => destruct b
           end; discriminate Cx).
    destruct (Prim2SF h) as [sh | sh | | sh mh eh];
      try destruct sh; cbn in Ch; try discriminate Ch;
      try (match type of Ch with
           | context [if ?b then _ else _] => destruct b
           end; discriminate Ch).
    reflexivity. }
  destruct H1 as [Hmem [Hn1 Hr1]].
  unfold h'. destruct (PrimFloat.ltb h1 x) eqn:Hlt.
  - split; [now right | ]. split; [assumption | ].
    split; [ | apply lex_le_refl].
    apply ltb_rank in Hlt. destruct Hlt as [_ [_ Hlt]].
    rewrite Hr1 in Hlt. now left.
  - split; [destruct Hmem; auto | ]. split; [assumption | ].
    rewrite Hr1. split; [apply lex_le_refl | ].
    rewrite <- Hr1. now apply ltb_false_rank.
Qed.

Lemma max_from_step (h x : float) (rest : list float) :
  PrimFloat.is_nan h = false -> PrimFloat.is_nan x = false ->
  exists h',
    JS.max_from h (x :: rest) = JS.max_from h' rest /\
    (h' = h \/ h' = x) /\
    PrimFloat.is_nan h' = false /\
    lex_le (rank (Prim2SF h)) (rank (Prim2SF h')) /\
    lex_le (rank (Prim2SF x)) (rank (Prim2SF h')).
Proof.
  intros Hh Hx. eexists. split.
  - cbn [JS.max_from]. rewrite Hx. reflexivity.
  - exact (max_step h x Hh Hx).
Qed.

(** [Math.max(a, b, c)] on three numbers is one of them and at least each
    of them. *)
Lemma Math_max_of_three (a b c : float) :
  PrimFloat.is_nan a = false -> PrimFloat.is_nan b = false ->
  PrimFloat.is_nan c = false ->
  (JS.Math_max [a; b; c] = a \/ JS.Math_max [a; b; c] = b \/
   JS.Math_max [a; b; c] = c) /\
  PrimFloat.leb a (JS.Math_max [a; b; c]) = true /\
  PrimFloat.leb b (JS.Math_max [a; b; c]) = true /\
  PrimFloat.leb c (JS.Math_max [a; b; c]) = true.
Proof.
  intros Ha Hb Hc. unfold JS.Math_max.
  destruct (max_from_step neg_infinity a [b; c] eq_refl Ha)
    as [h1 [-> [Hm1 [Hn1 [Hi1 Ha1]]]]].
  assert (E1 : h1 = a).
  { destruct Hm1 as [E | E]; [ | exact E].
    rewrite E in Ha1. rewrite E. symmetry.
    now apply rank_least_is_neg_infinity. }
  subst h1.
  destruct (max_from_step a b [c] Ha Hb) as [h2 [-> [Hm2 [Hn2 [Ha2 Hb2]]]]].
  destruct (max_from_step h2 c [] Hn2 Hc) as [h3 [-> [Hm3 [Hn3 [H23 Hc3]]]]].
  cbn [JS.max_from].
  split.
  - destruct Hm3 as [-> | ->]; [ | tauto]. destruct Hm2 as [-> | ->]; tauto.
  - repeat split; apply leb_rank; repeat split; try assumption.
    + now apply lex_le_trans with (2 := H23).
    + now apply lex_le_trans with (2 := H23).
Qed.

End FloatFacts.

(* ------------------------------------------------------------------ *)
(** ** CustomizationResolver: [parseUrlParams] *)

(** C9. [parseUrlParams] is a total function (it yields a [Customization]
    for every parameter list), and on the empty parameter list it yields
    exactly color "#FFFFFF", scale 1.0, pattern "solid", material
    "default". *)
Theorem parseUrlParams_empty :
  (forall params : JS.URLSearchParams,
      exists c : Customization, parseUrlParams params = c) /\
  parseUrlParams [] =
    {| color := "#FFFFFF"; scale := 1%float;
       pattern := Some "solid"; material := Some "default" |}.
Proof.
  split.
  - intro params. now exists (parseUrlParams params).
  - vm_compute. reflexivity.
Qed.

(** What [scale] becomes when the first [scale] parameter is [v]. *)
Lemma parseUrlParams_scale (params : JS.URLSearchParams) (v : string) :
  JS.get params "scale" = Some v ->
  scale (parseUrlParams params) =
    JS.parseFloat (if String.eqb v "" then "1.0" else v).
Proof.
  intro Hget. unfold parseUrlParams. simpl. rewrite Hget.
  destruct v; reflexivity.
Qed.

Lemma parseFloat_no_prefix (v : string) :
  JS.hasNumericPrefix v = false -> JS.parseFloat v = nan.
Proof.
  unfold JS.hasNumericPrefix, JS.parseFloat.
  destruct (JS.scanStrDecimalLiteral (JS.trimStart v)); congruence.
Qed.

(** C1, as the spec states it, fails: with [scale=abc] the key is present,
    the value does not parse as a number, and the scale is [NaN], not
    1.0. *)
Lemma unparsable_scale_is_not_one :
  ~ (forall (params : JS.URLSearchParams) (v : string),
        JS.get params "scale" = Some v ->
        JS.hasNumericPrefix v = false ->
        scale (parseUrlParams params) = 1%float).
Proof.
  intro H.
  specialize (H [("scale", "abc")] "abc" eq_refl eq_refl).
  vm_compute in H. now apply FloatOrder.nan_not_one.
Qed.

(** C1 (amended). When the [scale] key is present and its value does not
    parse as a floating-point number, [parseUrlParams] returns, without
    raising an error, a [Customization] whose scale is 1.0 if the value is
    the empty string and [NaN] (which is not 1.0) otherwise. *)
Theorem parseUrlParams_unparsable_scale
    (params : JS.URLSearchParams) (v : string) :
  JS.get params "scale" = Some v ->
  JS.hasNumericPrefix v = false ->
  (v = "" -> scale (parseUrlParams params) = 1%float) /\
  (v <> "" ->
     scale (parseUrlParams params) = nan /\
     scale (parseUrlParams params) <> 1%float).
Proof.
  intros Hget Hno. rewrite (parseUrlParams_scale params v Hget). split.
  - intros ->. vm_compute. reflexivity.
  - intro Hne. apply String.eqb_neq in Hne. rewrite Hne.
    rewrite (parseFloat_no_prefix v Hno).
    split; [reflexivity | exact FloatOrder.nan_not_one].
Qed.

Lemma parseUrlParams_unparsable_scale_witness :
  JS.get [("color", "#ff0000"); ("scale", "abc")] "scale" = Some "abc" /\
  JS.hasNumericPrefix "abc" = false /\
  scale (parseUrlParams [("color", "#ff0000"); ("scale", "abc")]) = nan.
Proof.
  split; [reflexivity | split; [reflexivity | ]].
  refine (proj1 (proj2 (parseUrlParams_unparsable_scale
            [("color", "#ff0000"); ("scale", "abc")] "abc"
            eq_refl eq_refl) _)).
  discriminate.
Defined.

(* ------------------------------------------------------------------ *)
(** ** FitChecker: the fit-check effect *)

Section FitCheck.

Variable glyphs : Glyphs.

(** C2. When at least one axis of the dimensions strictly exceeds the
    room's (width 4, height 2.8, depth 5), the result is the "does not
    fit" record: [fits = false], the red colour, the message "Object may
    not fit here - Too large for space" -- whatever the other axes are. *)
Theorem result_critical_when_axis_exceeds (d : Dimensions) :
  PrimFloat.ltb estimatedRoomWidth (width d) = true \/
  PrimFloat.ltb estimatedRoomHeight (height d) = true \/
  PrimFloat.ltb estimatedRoomDepth (depth d) = true ->
  result glyphs d =
    {| fits := false;
       message := "Object may not fit here - Too large for space";
       icon := warningSign glyphs;
       fit_color := "#ef4444" |}.
Proof.
  intro H. unfold result.
  assert (Hfit : allFit d = false).
  { unfold allFit, widthFit, heightFit, depthFit.
    destruct H as [H | [H | H]];
      rewrite (FloatOrder.ltb_not_leb _ _ H);
      now rewrite ?andb_false_r. }
  now rewrite Hfit.
Qed.

(** C3. When every axis is within the room (width <= 4, height <= 2.8,
    depth <= 5), the space usage is the largest of the three ratios
    width/4*100, height/2.8*100, depth/5*100: it is one of them and at
    least each of them.  The result is decided by it with exclusive
    boundaries: above 80 the "tight fit" record; above 60 and at most 80
    the "good fit" record, so a usage of exactly 80 is a good fit; at most
    60 the "perfect fit" record.  Read on the axes: a ratio above 80 gives
    "tight fit" whatever the others are; no ratio above 80 and one above 60
    gives "good fit"; no ratio above 60 gives "perfect fit".  The dimensions
    3.5 x 2.0 x 3.0 have usage 87.5 and get the "tight fit" record, with
    [fits = true]; for 1 x 2.7 x 1 the usage is the height ratio, above 96,
    and the record is "tight fit" too. *)
Theorem result_classification_by_usage (d : Dimensions) :
  PrimFloat.leb (width d) 4 = true ->
  PrimFloat.leb (height d) 0x1.6666666666666p+1 = true ->
  PrimFloat.leb (depth d) 5 = true ->
  let rw := (width d / 4 * 100)%float in
  let rh := (height d / 0x1.6666666666666p+1 * 100)%float in
  let rd := (depth d / 5 * 100)%float in
  let tight :=
    {| fits := true;
       message := "Tight fit - Limited space around object";
       icon := highVoltage glyphs;
       fit_color := "#f59e0b" |} in
  let good :=
    {| fits := true;
       message := "Good fit - Comfortable space";
       icon := checkMark glyphs;
       fit_color := "#10b981" |} in
  let perfect :=
    {| fits := true;
       message := "Perfect fit - Plenty of space!";
       icon := checkMark glyphs;
       fit_color := "#10b981" |} in
  ((spaceUsage d = rw \/ spaceUsage d = rh \/ spaceUsage d = rd) /\
   PrimFloat.leb rw (spaceUsage d) = true /\
   PrimFloat.leb rh (spaceUsage d) = true /\
   PrimFloat.leb rd (spaceUsage d) = true) /\
  (PrimFloat.ltb 80 (spaceUsage d) = true -> result glyphs d = tight) /\
  (PrimFloat.ltb 60 (spaceUsage d) = true ->
   PrimFloat.leb (spaceUsage d) 80 = true ->
     result glyphs d = good) /\
  (spaceUsage d = 80%float ->
     message (result glyphs d) = "Good fit - Comfortable space") /\
  (PrimFloat.leb (spaceUsage d) 60 = true -> result glyphs d = perfect) /\
  (PrimFloat.ltb 80 rw = true \/ PrimFloat.ltb 80 rh = true \/
   PrimFloat.ltb 80 rd = true ->
     result glyphs d = tight) /\
  (PrimFloat.leb rw 80 = true -> PrimFloat.leb rh 80 = true ->
   PrimFloat.leb rd 80 = true ->
   PrimFloat.ltb 60 rw = true \/ PrimFloat.ltb 60 rh = true \/
   PrimFloat.ltb 60 rd = true ->
     result glyphs d = good) /\
  (PrimFloat.leb rw 60 = true -> PrimFloat.leb rh 60 = true ->
   PrimFloat.leb rd 60 = true ->
     result glyphs d = perfect) /\
  (let example :=
     {| width := 3.5%float; height := 2%float; depth := 3%float |} in
   spaceUsage example = 87.5%float /\
   result glyphs example = tight) /\
  (let example :=
     {| width := 1%float; height := 0x1.599999999999ap+1%float;
        depth := 1%float |} in
   spaceUsage example
     = (0x1.599999999999ap+1 / 0x1.6666666666666p+1 * 100)%float /\
   PrimFloat.ltb 96 (spaceUsage example) = true /\
   result glyphs example = tight).
Proof.
  intros Hw Hh Hd rw rh rd tight good perfect.
  assert (Hnw : PrimFloat.is_nan rw = false).
  { apply FloatFacts.ratio_not_nan;
      [vm_compute; now do 3 eexists | vm_compute; now do 3 eexists | ].
    now apply FloatFacts.leb_rank in Hw. }
  assert (Hnh : PrimFloat.is_nan rh = false).
  { apply FloatFacts.ratio_not_nan;
      [vm_compute; now do 3 eexists | vm_compute; now do 3 eexists | ].
    now apply FloatFacts.leb_rank in Hh. }
  assert (Hnd : PrimFloat.is_nan rd = false).
  { apply FloatFacts.ratio_not_nan;
      [vm_compute; now do 3 eexists | vm_compute; now do 3 eexists | ].
    now apply FloatFacts.leb_rank in Hd. }
  change (spaceUsage d) with (JS.Math_max [rw; rh; rd]).
  destruct (FloatFacts.Math_max_of_three rw rh rd Hnw Hnh Hnd)
    as [Hmem [Lw [Lh Ld]]].
  assert (Hres : result glyphs d =
            if PrimFloat.ltb 80 (JS.Math_max [rw; rh; rd]) then tight
            else if PrimFloat.ltb 60 (JS.Math_max [rw; rh; rd]) then good
            else perfect).
  { unfold result, allFit, widthFit, heightFit, depthFit,
      estimatedRoomWidth, estimatedRoomHeight, estimatedRoomDepth.
    now rewrite Hw, Hh, Hd. }
  set (usage := JS.Math_max [rw; rh; rd]) in *.
  assert (Habove : forall t,
            PrimFloat.ltb t rw = true \/ PrimFloat.ltb t rh = true \/
            PrimFloat.ltb t rd = true ->
            PrimFloat.ltb t usage = true).
  { intros t [H | [H | H]];
      eapply FloatFacts.ltb_leb_trans; eassumption. }
  assert (Hbelow : forall t,
            PrimFloat.leb rw t = true -> PrimFloat.leb rh t = true ->
            PrimFloat.leb rd t = true -> PrimFloat.leb usage t = true).
  { intros t H1 H2 H3. destruct Hmem as [-> | [-> | ->]]; assumption. }
  assert (Htight : PrimFloat.ltb 80 usage = true -> result glyphs d = tight).
  { intro H. now rewrite Hres, H. }
  assert (Hgood : PrimFloat.ltb 60 usage = true ->
                  PrimFloat.leb usage 80 = true -> result glyphs d = good).
  { intros H60 H80.
    now rewrite Hres, (FloatOrder.leb_not_ltb _ _ H80), H60. }
  assert (Hperfect : PrimFloat.leb usage 60 = true ->
                     result glyphs d = perfect).
  { intro H60.
    now rewrite Hres, (FloatOrder.leb_60_not_above_80 _ H60),
                (FloatOrder.leb_not_ltb _ _ H60). }
  split; [now repeat split | ].
  split; [exact Htight | ].
  split; [exact Hgood | ].
  split; [intro E; rewrite Hgood; [reflexivity | | ]; now rewrite E | ].
  split; [exact Hperfect | ].
  split; [intro H; now apply Htight, Habove | ].
  split; [intros H1 H2 H3 H; apply Hgood; [now apply Habove
                                          | now apply Hbelow] | ].
  split; [intros H1 H2 H3; now apply Hperfect, Hbelow | ].
  split; (split; [vm_compute; reflexivity | ]);
    [ | split; [vm_compute; reflexivity | ] ];
    unfold result, tight; now vm_compute.
Qed.

End FitCheck.

Lemma result_critical_when_axis_exceeds_witness :
  PrimFloat.ltb estimatedRoomWidth 5 = true /\
  result welcome_glyphs
    {| width := 5%float; height := 1%float; depth := 1%float |} =
    {| fits := false;
       message := "Object may not fit here - Too large for space";
       icon := warningSign welcome_glyphs;
       fit_color := "#ef4444" |}.
Proof.
  split; [reflexivity | ].
  apply (result_critical_when_axis_exceeds welcome_glyphs
           {| width := 5%float; height := 1%float; depth := 1%float |}).
  left. reflexivity.
Defined.

Lemma result_classification_by_usage_witness :
  let d := {| width := 1%float; height := 0x1.599999999999ap+1%float;
              depth := 1%float |} in
  let e := {| width := 1%float; height := 1%float; depth := 4%float |} in
  (PrimFloat.leb (width d) 4 = true /\
   PrimFloat.leb (height d) 0x1.6666666666666p+1 = true /\
   PrimFloat.leb (depth d) 5 = true /\
   PrimFloat.ltb 80 (height d / 0x1.6666666666666p+1 * 100) = true /\
   message (result part_000_glyphs d)
     = "Tight fit - Limited space around object") /\
  (spaceUsage e = 80%float /\
   message (result part_000_glyphs e) = "Good fit - Comfortable space").
Proof.
  intros d e. split.
  - repeat (split; [reflexivity | ]).
    rewrite (proj1 (proj2 (proj2 (proj2 (proj2 (proj2
               (result_classification_by_usage part_000_glyphs d
                  eq_refl eq_refl eq_refl))))))
               (or_intror (or_introl eq_refl))).
    reflexivity.
  - split; [reflexivity | ].
    exact (proj1 (proj2 (proj2 (proj2
             (result_classification_by_usage part_000_glyphs e
                eq_refl eq_refl eq_refl))))
             eq_refl).
Defined.

(** The effect stores the result, and pulses only when the object fits. *)
Lemma fitCheckEffect_stores_result
    (env : Browser) (glyphs : Glyphs) (s : ViewerState) (d : Dimensions) :
  dimensions s = Some d ->
  exists w,
    run (fitCheckEffect env glyphs) s = (Normal tt, w) /\
    fitCheckResult (state w) = Some (result glyphs d) /\
    trace w = (if hasVibrate env && fits (result glyphs d)
               then [Vibrate [50%Z]] else []).
Proof.
  intro Hd. unfold run, fitCheckEffect, bind, get_state. simpl. rewrite Hd.
  unfold setFitCheckResult, modify. simpl.
  destruct (hasVibrate env && fits (result glyphs d));
    eexists; repeat split; reflexivity.
Qed.

(* ------------------------------------------------------------------ *)
(** ** CapabilityDetector: [supportsWebXR] *)

(** C7. [supportsWebXR] always completes normally, with a boolean and
    without touching state or trace: it never throws.  It yields [false]
    when [navigator] has no [xr], when the capability query rejects, and
    when the query throws. *)
Theorem supportsWebXR_never_throws (env : Browser) (w : World) :
  (exists b : bool, supportsWebXR env w = (Normal b, w)) /\
  (xr env = None -> supportsWebXR env w = (Normal false, w)) /\
  (forall reason : JsError,
      xr env = Some (Rejects reason) ->
      supportsWebXR env w = (Normal false, w)) /\
  (forall e : JsError,
      xr env = Some (ThrowsSync e) ->
      supportsWebXR env w = (Normal false, w)) /\
  (forall supported : bool,
      xr env = Some (Resolves supported) ->
      supportsWebXR env w = (Normal supported, w)).
Proof.
  unfold supportsWebXR.
  destruct (xr env) as [[supported | reason | e] | ];
    (split; [eexists; reflexivity | ]);
    repeat split; intros; try discriminate; try reflexivity.
  match goal with H : Some _ = Some _ |- _ => injection H as <- end.
  reflexivity.
Qed.

(* ------------------------------------------------------------------ *)
(** ** ARSessionController: [handleARStatus], [handleViewInARClick] *)

(** C5. From any state, and so from [idle], the events session-started,
    object-placed, not-presenting in this order leave [arStatus] at [idle]
    and the measurement overlay hidden. *)
Theorem ar_session_sequence_ends_idle (env : Browser) (s : ViewerState) :
  exists w,
    run (handleARStatuses env
           ["session-started"; "object-placed"; "not-presenting"]) s
      = (Normal tt, w) /\
    arStatus (state w) = idle /\
    showMeasurements (state w) = false.
Proof.
  unfold run, handleARStatuses, handleARStatus, bind, emit. simpl.
  destruct (hasVibrate env); simpl; eexists; repeat split; reflexivity.
Qed.

(** One step of the machine, for each recognized event. *)
Lemma handleARStatus_recognized (env : Browser) (s : ViewerState) :
  (exists w, run (handleARStatus env "not-presenting") s = (Normal tt, w) /\
     arStatus (state w) = idle /\ showMeasurements (state w) = false) /\
  (exists w, run (handleARStatus env "session-started") s = (Normal tt, w) /\
     arStatus (state w) = session_started /\
     showMeasurements (state w) = true) /\
  (exists w, run (handleARStatus env "object-placed") s = (Normal tt, w) /\
     arStatus (state w) = placed /\
     showMeasurements (state w) = showMeasurements s) /\
  (exists w, run (handleARStatus env "failed") s = (Normal tt, w) /\
     arStatus (state w) = failed /\
     showMeasurements (state w) = showMeasurements s).
Proof.
  unfold run, handleARStatus, bind, emit. simpl.
  destruct (hasVibrate env); simpl;
    repeat split; eexists; repeat split; reflexivity.
Qed.

(** C10. A status string other than the four recognized ones changes
    nothing in the state (so neither [arStatus] nor [showMeasurements]),
    and the only call it makes is the diagnostic [console.log]: no haptic
    pulse and no notice. *)
Theorem handleARStatus_unrecognized
    (env : Browser) (s : ViewerState) (status : string) :
  status <> "not-presenting" ->
  status <> "session-started" ->
  status <> "object-placed" ->
  status <> "failed" ->
  exists w,
    run (handleARStatus env status) s = (Normal tt, w) /\
    state w = s /\
    trace w = [ConsoleLog ["AR Status:"; status]] /\
    (forall pattern, ~ In (Vibrate pattern) (trace w)) /\
    (forall msg, ~ In (Alert msg) (trace w)).
Proof.
  intros H1 H2 H3 H4.
  apply String.eqb_neq in H1, H2, H3, H4.
  unfold run, handleARStatus, bind, emit. simpl.
  rewrite H1, H2, H3, H4. simpl.
  eexists. repeat split; try reflexivity.
  - simpl. intros pattern [H | []]. discriminate H.
  - simpl. intros msg [H | []]. discriminate H.
Qed.

Lemma handleARStatus_unrecognized_witness :
  exists w,
    run (handleARStatus plainBrowser "presenting") initialState
      = (Normal tt, w) /\
    state w = initialState /\
    trace w = [ConsoleLog ["AR Status:"; "presenting"]] /\
    (forall pattern, ~ In (Vibrate pattern) (trace w)) /\
    (forall msg, ~ In (Alert msg) (trace w)).
Proof.
  apply (handleARStatus_unrecognized plainBrowser initialState "presenting");
    discriminate.
Defined.

(** On a session that is not flagged mobile, a click only logs. *)
Lemma handleViewInARClick_desktop (w : World) :
  isMobile (state w) = false ->
  handleViewInARClick w =
    (Normal tt,
     {| state := state w;
        trace := trace w
                 ++ [ConsoleLog ["Desktop: QR code displayed automatically"]]
     |}).
Proof.
  intro Hm. unfold handleViewInARClick, bind, get_state. now rewrite Hm.
Qed.

(** On a mobile session a click opens the confirmation prompt; [arStatus]
    stays as it is and nothing is called. *)
Lemma handleViewInARClick_mobile (w : World) :
  isMobile (state w) = true ->
  exists w',
    handleViewInARClick w = (Normal tt, w') /\
    showConfirmation (state w') = true /\
    arStatus (state w') = arStatus (state w) /\
    trace w' = trace w.
Proof.
  intro Hm. unfold handleViewInARClick, bind, get_state. rewrite Hm.
  eexists. repeat split.
Qed.

(** C6. On a session that is not flagged mobile and whose [arStatus] is
    [idle], every world reached by "view in AR" requests still has
    [arStatus = idle] (the whole state is unchanged), and its trace holds
    no AR activation that was not there before. *)
Theorem view_in_ar_on_desktop_stays_idle (w0 w : World) :
  isMobile (state w0) = false ->
  arStatus (state w0) = idle ->
  reached_by_clicks w0 w ->
  arStatus (state w) = idle /\
  state w = state w0 /\
  (In ActivateAR (trace w) -> In ActivateAR (trace w0)).
Proof.
  intros Hm Hidle Hreach.
  assert (Hinv : state w = state w0 /\
                 (In ActivateAR (trace w) -> In ActivateAR (trace w0))).
  { induction Hreach as [ | w w' c Hreach [IHs IHt] Hstep].
    - split; [reflexivity | trivial].
    - rewrite handleViewInARClick_desktop in Hstep
        by (rewrite IHs; exact Hm).
      injection Hstep as _ <-. simpl. split; [exact IHs | ].
      intro Hin. apply in_app_or in Hin. destruct Hin as [Hin | Hin].
      + now apply IHt.
      + destruct Hin as [Hin | []]. discriminate Hin. }
  destruct Hinv as [Hs Ht]. rewrite Hs. now repeat split.
Qed.

Lemma view_in_ar_on_desktop_stays_idle_witness :
  let w0 := {| state := initialState; trace := [] |} in
  let w2 :=
    {| state := initialState;
       trace := [ConsoleLog ["Desktop: QR code displayed automatically"];
                 ConsoleLog ["Desktop: QR code displayed automatically"]]
    |} in
  reached_by_clicks w0 w2 /\
  arStatus (state w2) = idle /\
  state w2 = state w0 /\
  (In ActivateAR (trace w2) -> In ActivateAR (trace w0)).
Proof.
  intros w0 w2.
  assert (Hreach : reached_by_clicks w0 w2).
  { eapply reached_click;
      [eapply reached_click; [apply reached_start | reflexivity]
      | reflexivity]. }
  split; [exact Hreach | ].
  exact (view_in_ar_on_desktop_stays_idle w0 w2 eq_refl eq_refl Hreach).
Defined.

(* ------------------------------------------------------------------ *)
(** ** CaptureService: [captureARImage] *)

(** C8. With no viewer element in [modelViewerRef], the capture shows the
    "Model viewer not ready" notice and returns normally; the state is
    unchanged and nothing else is called, so no download is triggered. *)
Theorem captureARImage_without_viewer
    (env : Browser) (glyphs : Glyphs) (s : ViewerState) :
  modelViewerRef s = None ->
  exists w,
    run (captureARImage env glyphs) s = (Normal tt, w) /\
    state w = s /\
    trace w = [Alert "Model viewer not ready"] /\
    (forall link, ~ In (Click link) (trace w)) /\
    (forall blob url, ~ In (CreateObjectURL blob url) (trace w)).
Proof.
  intro Href. unfold run, captureARImage, bind, get_state. simpl.
  rewrite Href. eexists. repeat split.
  - simpl. intros link [H | []]. discriminate H.
  - simpl. intros blob url [H | []]. discriminate H.
Qed.

Lemma captureARImage_without_viewer_witness :
  modelViewerRef initialState = None /\
  exists w,
    run (captureARImage plainBrowser welcome_glyphs) initialState
      = (Normal tt, w) /\
    state w = initialState /\
    trace w = [Alert "Model viewer not ready"] /\
    (forall link, ~ In (Click link) (trace w)) /\
    (forall blob url, ~ In (CreateObjectURL blob url) (trace w)).
Proof.
  split; [reflexivity | ].
  exact (captureARImage_without_viewer plainBrowser welcome_glyphs
           initialState eq_refl).
Defined.

(** When every call goes through, the object URL is created, used by the
    download link and then revoked. *)
Lemma captureARImage_success_revokes
    (env : Browser) (glyphs : Glyphs) (s : ViewerState)
    (viewer : ModelViewer) (blob : Blob) :
  modelViewerRef s = Some viewer ->
  toBlob viewer = Normal blob ->
  (forall c, fault env c = None) ->
  let url := objectURL env blob in
  let link :=
    {| href := url;
       download := "ar-product-" ++ replaceColonsAndDots (now env) ++ ".png"
    |} in
  exists w,
    run (captureARImage env glyphs) s = (Normal tt, w) /\
    captureStatus (state w) = imageSaved glyphs /\
    trace w =
      ([CreateObjectURL blob url; CreateElement "a"; AppendChild link;
        Click link; RemoveChild link; RevokeObjectURL url]
       ++ (if hasVibrate env then [Vibrate [50; 50; 50]%Z] else [])
       ++ [SetTimeout ClearCaptureStatus 2000])%list.
Proof.
  intros Href Hblob Hok url link.
  unfold run, captureARImage, bind, get_state. simpl. rewrite Href.
  unfold try_catch, bind, call, settle. simpl.
  rewrite Hblob. simpl. rewrite !Hok. simpl.
  destruct (hasVibrate env); eexists; repeat split; reflexivity.
Qed.

(** C4 (where the code departs from the claim). The [catch] block does not
    revoke.  When [toBlob] resolves and [createObjectURL] goes through, and
    one of the later DOM or URL calls of the [try] block throws, the capture
    ends with the "Capture failed" status and a trace in which the object
    URL was created and is not revoked: it is released on the success path
    only. *)
Theorem captureARImage_failure_keeps_url
    (env : Browser) (glyphs : Glyphs) (s : ViewerState)
    (viewer : ModelViewer) (blob : Blob) :
  modelViewerRef s = Some viewer ->
  toBlob viewer = Normal blob ->
  fault env CallCreateObjectURL = None ->
  (exists c, fault env c <> None) ->
  exists w,
    run (captureARImage env glyphs) s = (Normal tt, w) /\
    captureStatus (state w) = captureFailed glyphs /\
    In (CreateObjectURL blob (objectURL env blob)) (trace w) /\
    ~ In (RevokeObjectURL (objectURL env blob)) (trace w).
Proof.
  intros Href Hblob Hcreate [c Hc].
  unfold run, captureARImage, bind, get_state. simpl. rewrite Href.
  unfold try_catch, bind, call, settle. simpl.
  rewrite Hblob. simpl. rewrite Hcreate. simpl.
  destruct (fault env CallCreateElement) eqn:E1; simpl;
    [ | destruct (fault env CallAppendChild) eqn:E2; simpl;
        [ | destruct (fault env CallClick) eqn:E3; simpl;
            [ | destruct (fault env CallRemoveChild) eqn:E4; simpl;
                [ | destruct (fault env CallRevokeObjectURL) eqn:E5; simpl;
                    [ | destruct c; congruence ] ] ] ] ];
    (eexists; split; [reflexivity | ];
     split; [reflexivity | ];
     split; [simpl; now left | ];
     simpl; intuition discriminate).
Qed.

Lemma captureARImage_failure_keeps_url_witness :
  exists w,
    run (captureARImage appendChildThrows welcome_glyphs)
        (stateWithViewer readyViewer) = (Normal tt, w) /\
    captureStatus (state w) = captureFailed welcome_glyphs /\
    In (CreateObjectURL "PNG" "blob:https://example.test/1") (trace w) /\
    ~ In (RevokeObjectURL "blob:https://example.test/1") (trace w).
Proof.
  apply (captureARImage_failure_keeps_url appendChildThrows welcome_glyphs
           (stateWithViewer readyViewer) readyViewer "PNG"
           eq_refl eq_refl eq_refl).
  exists CallAppendChild. discriminate.
Defined.

(** The run at that input, in full. *)
Example captureARImage_appendChild_throws_trace :
  run (captureARImage appendChildThrows welcome_glyphs)
      (stateWithViewer readyViewer) =
    (Normal tt,
     {| state :=
          {| isMobile := false; isIOS := false; webXRSupported := false;
             showConfirmation := false;
             customizations := customizations initialState;
             arStatus := idle; captureEnabled := true;
             showMeasurements := false; dimensions := None;
             fitCheckResult := None; customUSDZUrl := "";
             isModelLoaded := true; showInstructions := true;
             captureStatus := captureFailed welcome_glyphs;
             modelViewerRef := Some readyViewer |};
        trace :=
          [CreateObjectURL "PNG" "blob:https://example.test/1";
           CreateElement "a";
           ConsoleError "Capture failed:" "HierarchyRequestError";
           SetTimeout ClearCaptureStatus 2000] |}).
Proof. vm_compute. reflexivity. Qed.

Example captureARImage_success_trace :
  snd (run (captureARImage plainBrowser welcome_glyphs)
           (stateWithViewer readyViewer)) =
    {| state :=
         {| isMobile := false; isIOS := false; webXRSupported := false;
            showConfirmation := false;
            customizations := customizations initialState;
            arStatus := idle; captureEnabled := true;
            showMeasurements := false; dimensions := None;
            fitCheckResult := None; customUSDZUrl := "";
            isModelLoaded := true; showInstructions := true;
            captureStatus := imageSaved welcome_glyphs;
            modelViewerRef := Some readyViewer |};
       trace :=
         let link :=
           {| href := "blob:https://example.test/1";
              download := "ar-product-2024-01-02T03-04-05-678Z.png" |} in
         [CreateObjectURL "PNG" "blob:https://example.test/1";
          CreateElement "a"; AppendChild link; Click link; RemoveChild link;
          RevokeObjectURL "blob:https://example.test/1";
          Vibrate [50; 50; 50]%Z;
          SetTimeout ClearCaptureStatus 2000] |}.
Proof. vm_compute. reflexivity. Qed.

(** A rejected [toBlob] fails before any URL exists. *)
Lemma captureARImage_toBlob_rejects
    (env : Browser) (glyphs : Glyphs) (s : ViewerState)
    (viewer : ModelViewer) (reason : JsError) :
  modelViewerRef s = Some viewer ->
  toBlob viewer = Throw reason ->
  exists w,
    run (captureARImage env glyphs) s = (Normal tt, w) /\
    captureStatus (state w) = captureFailed glyphs /\
    trace w = [ConsoleError "Capture failed:" reason;
               SetTimeout ClearCaptureStatus 2000].
Proof.
  intros Href Hblob.
  unfold run, captureARImage, bind, get_state. simpl. rewrite Href.
  unfold try_catch, bind, settle. simpl. rewrite Hblob. simpl.
  eexists. repeat split.
Qed.

(* ------------------------------------------------------------------ *)
(** ** Device detection *)

Lemma matchesAt_ignoring_case (word s : string) :
  matchesAt sameChar word s = true ->
  matchesAt sameCharIgnoreCase word s = true.
Proof.
  revert s. induction word as [ | p word IH]; intros s H; [reflexivity | ].
  destruct s as [ | c s]; [discriminate H | ]. simpl in *.
  apply andb_true_iff in H. destruct H as [Hc Hrest].
  apply andb_true_iff. split; [ | now apply IH].
  unfold sameChar in Hc. apply Ascii.eqb_eq in Hc. subst c.
  unfold sameCharIgnoreCase. apply Ascii.eqb_refl.
Qed.

Lemma occursIn_ignoring_case (word s : string) :
  occursIn sameChar word s = true ->
  occursIn sameCharIgnoreCase word s = true.
Proof.
  induction s as [ | c s IH]; simpl; intro H.
  - apply orb_true_iff in H. destruct H as [H | H]; [ | discriminate H].
    now rewrite (matchesAt_ignoring_case _ _ H).
  - apply orb_true_iff in H. destruct H as [H | H].
    + now rewrite (matchesAt_ignoring_case _ _ H).
    + rewrite (IH H). apply orb_true_r.
Qed.

Lemma isIOSDevice_isMobileDevice (userAgent : string) :
  isIOSDevice userAgent = true -> isMobileDevice userAgent = true.
Proof.
  unfold isIOSDevice, isMobileDevice. simpl. intro H.
  repeat (apply orb_true_iff in H; destruct H as [H | H]);
    try discriminate H;
    apply occursIn_ignoring_case in H; rewrite H;
    now rewrite ?orb_true_r.
Qed.

(** X1. Every user agent that [isIOSDevice] accepts, [isMobileDevice]
    accepts too. *)
Theorem iOS_device_is_mobile (userAgent : string) :
  isIOSDevice userAgent = true -> isMobileDevice userAgent = true.
Proof. exact (isIOSDevice_isMobileDevice userAgent). Qed.

Lemma iOS_device_is_mobile_witness :
  isIOSDevice (userAgent iPhoneLocation) = true /\
  isMobileDevice (userAgent iPhoneLocation) = true.
Proof.
  split; [reflexivity | ].
  apply (iOS_device_is_mobile (userAgent iPhoneLocation)). reflexivity.
Defined.

Lemma upcase_idempotent (c : ascii) : upcase (upcase c) = upcase c.
Proof.
  destruct c as [[] [] [] [] [] [] [] []]; reflexivity.
Qed.

Lemma matchesAt_upcase (word s : string) :
  matchesAt sameCharIgnoreCase word (upcaseString s)
  = matchesAt sameCharIgnoreCase word s.
Proof.
  revert s. induction word as [ | p word IH]; intro s; [reflexivity | ].
  destruct s as [ | c s]; [reflexivity | ]. simpl.
  rewrite IH. unfold sameCharIgnoreCase. now rewrite upcase_idempotent.
Qed.

Lemma occursIn_upcase (word s : string) :
  occursIn sameCharIgnoreCase word (upcaseString s)
  = occursIn sameCharIgnoreCase word s.
Proof.
  induction s as [ | c s IH].
  - reflexivity.
  - change (upcaseString (String c s))
      with (String (upcase c) (upcaseString s)).
    change (occursIn sameCharIgnoreCase word
              (String (upcase c) (upcaseString s)))
      with (matchesAt sameCharIgnoreCase word (upcaseString (String c s))
            || occursIn sameCharIgnoreCase word (upcaseString s)).
    now rewrite matchesAt_upcase, IH.
Qed.

(** X2. [isMobileDevice] does not depend on the letter case of the user
    agent: the upper-cased user agent gets the same answer.  ([isIOSDevice]
    does depend on it.) *)
Theorem isMobileDevice_ignores_case (userAgent : string) :
  isMobileDevice (upcaseString userAgent) = isMobileDevice userAgent /\
  isIOSDevice (upcaseString "iPhone") <> isIOSDevice "iPhone".
Proof.
  split; [ | discriminate].
  unfold isMobileDevice. simpl. now rewrite !occursIn_upcase.
Qed.

(* ------------------------------------------------------------------ *)
(** ** [hexToRgb] *)

Lemma hexDigit_below_16 (c : ascii) (n : N) :
  hexDigit c = Some n -> (n < 16)%N.
Proof.
  destruct c as [[] [] [] [] [] [] [] []]; vm_compute;
    intro H; try discriminate H; injection H as <-; reflexivity.
Qed.

Lemma hexPair_below_256 (hi lo : ascii) (n : N) :
  hexPair hi lo = Some n -> (n < 256)%N.
Proof.
  unfold hexPair.
  destruct (hexDigit hi) as [h | ] eqn:Hh; [ | discriminate].
  destruct (hexDigit lo) as [l | ] eqn:Hl; [ | discriminate].
  intro H.
  assert (Hn : n = (16 * h + l)%N) by congruence.
  apply hexDigit_below_16 in Hh, Hl. lia.
Qed.

Lemma channel_in_unit_interval (n : N) :
  (n < 256)%N ->
  PrimFloat.leb 0 (channel n) = true /\ PrimFloat.leb (channel n) 1 = true.
Proof.
  intro Hn.
  assert (Hall :
    forallb (fun k => PrimFloat.leb 0 (channel (N.of_nat k))
                      && PrimFloat.leb (channel (N.of_nat k)) 1)
            (seq 0 256) = true) by (vm_compute; reflexivity).
  rewrite forallb_forall in Hall.
  specialize (Hall (N.to_nat n)).
  rewrite N2Nat.id in Hall.
  apply andb_true_iff. apply Hall. apply in_seq. lia.
Qed.

(** X3. Whenever [hexToRgb] returns a colour, each of its three channels
    lies between 0 and 1. *)
Theorem hexToRgb_channels_in_unit_interval (hex : string) (c : Rgb.t) :
  hexToRgb hex = Some c ->
  (PrimFloat.leb 0 (Rgb.r c) = true /\ PrimFloat.leb (Rgb.r c) 1 = true) /\
  (PrimFloat.leb 0 (Rgb.g c) = true /\ PrimFloat.leb (Rgb.g c) 1 = true) /\
  (PrimFloat.leb 0 (Rgb.b c) = true /\ PrimFloat.leb (Rgb.b c) 1 = true).
Proof.
  unfold hexToRgb.
  set (digits := match hex with
                 | String "#"%char rest => rest
                 | _ => hex
                 end).
  destruct digits as [ | r1 [ | r2 [ | g1 [ | g2 [ | b1 [ | b2 [ | ]]]]]]];
    try discriminate.
  destruct (hexPair r1 r2) as [r | ] eqn:Hr; [ | discriminate].
  destruct (hexPair g1 g2) as [g | ] eqn:Hg; [ | discriminate].
  destruct (hexPair b1 b2) as [b | ] eqn:Hb; [ | discriminate].
  intro H. injection H as <-. simpl.
  apply hexPair_below_256 in Hr, Hg, Hb.
  repeat split; now apply channel_in_unit_interval.
Qed.

Lemma hexToRgb_channels_in_unit_interval_witness :
  exists c,
    hexToRgb "#1e90FF" = Some c /\
    PrimFloat.leb 0 (Rgb.g c) = true /\ PrimFloat.leb (Rgb.g c) 1 = true.
Proof.
  eexists. split; [reflexivity | ].
  exact (proj1 (proj2 (hexToRgb_channels_in_unit_interval "#1e90FF" _
                         eq_refl))).
Defined.

Lemma hexPair_some (hi lo : ascii) :
  isSome (hexPair hi lo) = isHexDigit hi && isHexDigit lo.
Proof.
  unfold hexPair, isHexDigit.
  destruct (hexDigit hi), (hexDigit lo); reflexivity.
Qed.

(** [hexToRgb] on exactly six characters. *)
Lemma hexToRgb_six (digits : string) :
  String.length digits = 6%nat ->
  isSome (hexToRgb digits) = allChars isHexDigit digits /\
  isSome (hexToRgb (String "#" digits)) = allChars isHexDigit digits.
Proof.
  destruct digits as [ | r1 [ | r2 [ | g1 [ | g2 [ | b1 [ | b2 [ | ]]]]]]];
    try discriminate.
  intros _.
  assert (Hbody :
    isSome (match hexPair r1 r2, hexPair g1 g2, hexPair b1 b2 with
            | Some r, Some g, Some b =>
                Some {| Rgb.r := channel r; Rgb.g := channel g;
                        Rgb.b := channel b |}
            | _, _, _ => None
            end)
    = allChars isHexDigit
        (String r1 (String r2 (String g1 (String g2 (String b1
          (String b2 EmptyString))))))).
  { simpl. rewrite andb_true_r.
    rewrite !andb_assoc, <- (hexPair_some r1 r2).
    rewrite <- !andb_assoc, <- (hexPair_some b1 b2).
    rewrite (andb_assoc (isHexDigit g1)), <- (hexPair_some g1 g2).
    destruct (hexPair r1 r2), (hexPair g1 g2), (hexPair b1 b2);
      reflexivity. }
  split; [ | exact Hbody].
  destruct (Ascii.eqb_spec r1 "#"%char) as [-> | Hne].
  - reflexivity.
  - rewrite <- Hbody. unfold hexToRgb.
    destruct r1 as [[] [] [] [] [] [] [] []]; reflexivity.
Qed.

(** X4. [hexToRgb] returns a colour exactly for six hexadecimal digits
    with at most one leading [#]: any other length (the three-digit
    shorthand, eight digits, surrounding spaces) and any other character
    give [null]. *)
Theorem hexToRgb_accepts_six_hex_digits (hex : string) :
  isSome (hexToRgb hex) = true <->
  exists digits,
    (hex = digits \/ hex = String "#" digits) /\
    String.length digits = 6%nat /\
    allChars isHexDigit digits = true.
Proof.
  split.
  - intro H.
    destruct hex as [ | c hex]; [discriminate H | ].
    destruct (Ascii.eqb_spec c "#"%char) as [-> | Hne].
    + exists hex.
      assert (Hlen : String.length hex = 6%nat).
      { unfold hexToRgb in H.
        destruct hex as [ | r1 [ | r2 [ | g1 [ | g2 [ | b1 [ | b2 [ | ]]]]]]];
          try discriminate H. reflexivity. }
      split; [now right | split; [exact Hlen | ]].
      now rewrite <- (proj2 (hexToRgb_six hex Hlen)).
    + exists (String c hex).
      assert (Hplain :
        hexToRgb (String c hex) =
        match String c hex with
        | String r1 (String r2 (String g1 (String g2 (String b1 (String b2
            EmptyString))))) =>
            match hexPair r1 r2, hexPair g1 g2, hexPair b1 b2 with
            | Some r, Some g, Some b =>
                Some {| Rgb.r := channel r; Rgb.g := channel g;
                        Rgb.b := channel b |}
            | _, _, _ => None
            end
        | _ => None
        end).
      { unfold hexToRgb.
        destruct c as [[] [] [] [] [] [] [] []]; try reflexivity.
        now elim Hne. }
      assert (Hlen : String.length (String c hex) = 6%nat).
      { rewrite Hplain in H.
        destruct hex as [ | r2 [ | g1 [ | g2 [ | b1 [ | b2 [ | ]]]]]];
          try discriminate H. reflexivity. }
      split; [now left | split; [exact Hlen | ]].
      now rewrite <- (proj1 (hexToRgb_six _ Hlen)).
  - intros [digits [[-> | ->] [Hlen Hall]]].
    + now rewrite (proj1 (hexToRgb_six digits Hlen)).
    + now rewrite (proj2 (hexToRgb_six digits Hlen)).
Qed.




(* ------------------------------------------------------------------ *)
(** ** More on [parseUrlParams] *)

Lemma or_else_absent_or_empty (a : option string) (d : string) :
  a = None \/ a = Some "" -> JS.or_else a d = d.
Proof. now intros [-> | ->]. Qed.

Lemma or_else_present (v d : string) :
  v <> "" -> JS.or_else (Some v) d = v.
Proof. destruct v; [congruence | reflexivity]. Qed.

Lemma or_else_not_empty (a : option string) (d : string) :
  d <> "" -> JS.or_else a d <> "".
Proof. destruct a as [[ | c v] | ]; simpl; intros; congruence. Qed.

(** X6. Whatever the parameters, the colour, the pattern and the material
    of the result are non-empty strings: a parameter that is absent or empty
    is replaced by its default ("#FFFFFF", "solid", "default", and scale
    1.0), and any non-empty value is taken as it is, without validation. *)
Theorem parseUrlParams_fields (params : JS.URLSearchParams) :
  let c := parseUrlParams params in
  (color c <> "" /\
   (exists p, pattern c = Some p /\ p <> "") /\
   (exists m, material c = Some m /\ m <> "")) /\
  (forall v, JS.get params "color" = Some v -> v <> "" -> color c = v) /\
  (forall v, JS.get params "pattern" = Some v -> v <> "" ->
             pattern c = Some v) /\
  (forall v, JS.get params "material" = Some v -> v <> "" ->
             material c = Some v) /\
  (JS.get params "color" = None \/ JS.get params "color" = Some "" ->
     color c = "#FFFFFF") /\
  (JS.get params "scale" = None \/ JS.get params "scale" = Some "" ->
     scale c = 1%float) /\
  (JS.get params "pattern" = None \/ JS.get params "pattern" = Some "" ->
     pattern c = Some "solid") /\
  (JS.get params "material" = None \/ JS.get params "material" = Some "" ->
     material c = Some "default").
Proof.
  unfold parseUrlParams. simpl. repeat split.
  - now apply or_else_not_empty.
  - eexists. split; [reflexivity | now apply or_else_not_empty].
  - eexists. split; [reflexivity | now apply or_else_not_empty].
  - intros v -> Hv. now apply or_else_present.
  - intros v -> Hv. now rewrite or_else_present.
  - intros v -> Hv. now rewrite or_else_present.
  - intro H. now apply or_else_absent_or_empty.
  - intro H. now rewrite (or_else_absent_or_empty _ "1.0" H).
  - intro H. now rewrite or_else_absent_or_empty.
  - intro H. now rewrite or_else_absent_or_empty.
Qed.

Lemma get_skips_pair (front back : JS.URLSearchParams) (k v name : string) :
  String.eqb k name = false \/ isSome (JS.get front name) = true ->
  JS.get (front ++ (k, v) :: back)%list name = JS.get (front ++ back)%list name.
Proof.
  induction front as [ | [k' v'] front IH]; simpl; intro H.
  - destruct H as [H | H]; [now rewrite H | discriminate H].
  - destruct (String.eqb k' name); [reflexivity | now apply IH].
Qed.

(** X7. A parameter that is not one of color, scale, pattern, material is
    ignored, and so is every repetition of a parameter after its first
    occurrence: removing such a pair from the query does not change the
    result. *)
Theorem parseUrlParams_ignores_pair
    (front back : JS.URLSearchParams) (k v : string) :
  knownParam k = false \/ isSome (JS.get front k) = true ->
  parseUrlParams (front ++ (k, v) :: back)%list = parseUrlParams (front ++ back)%list.
Proof.
  intro H.
  assert (Hget : forall name, knownParam name = true ->
            JS.get (front ++ (k, v) :: back)%list name
            = JS.get (front ++ back)%list name).
  { intros name Hname. apply get_skips_pair.
    destruct (String.eqb_spec k name) as [<- | Hne]; [ | now left].
    right. destruct H as [H | H]; [congruence | exact H]. }
  unfold parseUrlParams.
  now rewrite !Hget by reflexivity.
Qed.

Lemma parseUrlParams_ignores_pair_witness :
  parseUrlParams
    ([("scale", "2")] ++ ("utm_source", "mail") :: [("scale", "3")])%list
  = parseUrlParams ([("scale", "2")] ++ [("scale", "3")])%list /\
  parseUrlParams ([("scale", "2")] ++ ("scale", "3") :: [])%list
  = parseUrlParams ([("scale", "2")] ++ [])%list.
Proof.
  split.
  - apply (parseUrlParams_ignores_pair [("scale", "2")] [("scale", "3")]
             "utm_source" "mail").
    left. reflexivity.
  - apply (parseUrlParams_ignores_pair [("scale", "2")] []
             "scale" "3").
    right. reflexivity.
Defined.

(* ------------------------------------------------------------------ *)
(** ** More on the fit check *)

Lemma SFcompare_refl_not_nan (x : spec_float) :
  SFeqb x x = false -> x = S754_nan.
Proof.
  unfold SFeqb, SFcompare.
  destruct x as [s | s | | s m e]; try reflexivity; try discriminate.
  - destruct s; discriminate.
  - rewrite Z.compare_refl, Pos.compare_cont_refl.
    destruct s; discriminate.
Qed.

Lemma is_nan_Prim2SF (x : float) :
  PrimFloat.is_nan x = true -> Prim2SF x = S754_nan.
Proof.
  unfold PrimFloat.is_nan. rewrite eqb_spec. intro H.
  apply SFcompare_refl_not_nan. now destruct (SFeqb (Prim2SF x) (Prim2SF x)).
Qed.

Lemma Prim2SF_is_nan (x : float) :
  Prim2SF x = S754_nan -> PrimFloat.is_nan x = true.
Proof.
  unfold PrimFloat.is_nan. rewrite eqb_spec. now intros ->.
Qed.

Lemma nan_leb_false (x y : float) :
  PrimFloat.is_nan x = true -> PrimFloat.leb x y = false.
Proof.
  intro H. rewrite leb_spec, (is_nan_Prim2SF x H). reflexivity.
Qed.

Lemma nan_ratio (x y z : float) :
  PrimFloat.is_nan x = true -> PrimFloat.is_nan (x / y * z) = true.
Proof.
  intro H. apply Prim2SF_is_nan.
  rewrite mul_spec, div_spec, (is_nan_Prim2SF x H). reflexivity.
Qed.

Lemma Math_max_nan3 (a b c : float) :
  PrimFloat.is_nan a = true \/ PrimFloat.is_nan b = true
  \/ PrimFloat.is_nan c = true ->
  JS.Math_max [a; b; c] = nan.
Proof.
  unfold JS.Math_max. simpl.
  destruct (PrimFloat.is_nan a); [reflexivity | ].
  destruct (PrimFloat.is_nan b); [reflexivity | ].
  destruct (PrimFloat.is_nan c); [reflexivity | ].
  intuition discriminate.
Qed.

Section FitCheckMore.

Variable env : Browser.
Variable glyphs : Glyphs.

(** X8. The verdict says "fits" exactly when each of the three axes is at
    most the room's, and its message is one of the four of the source. *)
Theorem result_fits_iff_within_room (d : Dimensions) :
  (fits (result glyphs d) = true <->
     PrimFloat.leb (width d) 4 = true /\
     PrimFloat.leb (height d) 0x1.6666666666666p+1 = true /\
     PrimFloat.leb (depth d) 5 = true) /\
  (message (result glyphs d)
     = "Object may not fit here - Too large for space" \/
   message (result glyphs d) = "Tight fit - Limited space around object" \/
   message (result glyphs d) = "Good fit - Comfortable space" \/
   message (result glyphs d) = "Perfect fit - Plenty of space!").
Proof.
  assert (Hfits : fits (result glyphs d) = allFit d).
  { unfold result. destruct (allFit d); simpl; [ | reflexivity].
    destruct (PrimFloat.ltb 80 (spaceUsage d)); [reflexivity | ].
    destruct (PrimFloat.ltb 60 (spaceUsage d)); reflexivity. }
  split.
  - rewrite Hfits. unfold allFit, widthFit, heightFit, depthFit.
    rewrite !andb_true_iff. tauto.
  - unfold result. destruct (allFit d); simpl; [ | now left].
    destruct (PrimFloat.ltb 80 (spaceUsage d)); [now right; left | ].
    destruct (PrimFloat.ltb 60 (spaceUsage d)); [now right; right; left | ].
    now right; right; right.
Qed.

(** X9. Dimensions with a [NaN] axis get the "may not fit" verdict, and
    their space usage is [NaN]. *)
Theorem result_of_nan_dimensions (d : Dimensions) :
  PrimFloat.is_nan (width d) = true \/
  PrimFloat.is_nan (height d) = true \/
  PrimFloat.is_nan (depth d) = true ->
  spaceUsage d = nan /\
  result glyphs d =
    {| fits := false;
       message := "Object may not fit here - Too large for space";
       icon := warningSign glyphs;
       fit_color := "#ef4444" |}.
Proof.
  intro H. split.
  - unfold spaceUsage. apply Math_max_nan3.
    destruct H as [H | [H | H]];
      [left | right; left | right; right]; now apply nan_ratio.
  - unfold result.
    assert (Hfit : allFit d = false).
    { unfold allFit, widthFit, heightFit, depthFit.
      destruct H as [H | [H | H]];
        rewrite (nan_leb_false _ _ H); now rewrite ?andb_false_r. }
    now rewrite Hfit.
Qed.

(** X10. The fit-check effect never throws and touches only
    [fitCheckResult].  Without dimensions it does nothing at all, so a
    verdict already stored stays.  With dimensions it stores their verdict,
    and its only call is one 50 ms pulse, made when the verdict says "fits"
    and the browser can vibrate. *)
Theorem fitCheckEffect_frame (w : World) :
  exists w',
    fitCheckEffect env glyphs w = (Normal tt, w') /\
    state w' = with_fitCheckResult (fitCheckResult (state w')) (state w) /\
    (dimensions (state w) = None -> w' = w) /\
    (forall d, dimensions (state w) = Some d ->
       fitCheckResult (state w') = Some (result glyphs d) /\
       trace w' = (trace w ++
                   if hasVibrate env && fits (result glyphs d)
                   then [Vibrate [50%Z]] else [])%list).
Proof.
  unfold fitCheckEffect, bind, get_state.
  destruct w as [s t]. simpl.
  destruct (dimensions s) as [d | ] eqn:Hd.
  - unfold setFitCheckResult, modify, emit, ret. simpl.
    destruct (hasVibrate env && fits (result glyphs d)) eqn:Hb; simpl;
      eexists; (split; [reflexivity | ]); simpl;
      (split; [reflexivity | ]);
      (split; [discriminate | ]);
      intros d' Hd'; injection Hd' as <-; rewrite Hb;
      (split; [reflexivity | ]); now rewrite ?app_nil_r.
  - eexists. split; [reflexivity | ]. simpl.
    split; [now destruct s | ].
    split; [reflexivity | discriminate].
Qed.

End FitCheckMore.

Lemma result_of_nan_dimensions_witness :
  result welcome_glyphs
    {| width := 1%float; height := nan; depth := 1%float |} =
    {| fits := false;
       message := "Object may not fit here - Too large for space";
       icon := warningSign welcome_glyphs;
       fit_color := "#ef4444" |}.
Proof.
  apply (result_of_nan_dimensions welcome_glyphs
           {| width := 1%float; height := nan; depth := 1%float |}).
  right. left. reflexivity.
Defined.

(* ------------------------------------------------------------------ *)
(** ** More on the AR session handlers *)

(** X11. For every status string, known or not, [handleARStatus] returns
    normally and changes at most [arStatus] and [showMeasurements]; the
    status it leaves is the one it found or one of idle, session-started,
    placed, failed (never detecting or ready).  After the log line it
    pulses only if the browser can vibrate, and it shows a notice only for
    "failed". *)
Theorem handleARStatus_frame (env : Browser) (status : string) (w : World) :
  exists w' added,
    handleARStatus env status w = (Normal tt, w') /\
    state w' = with_arStatus (arStatus (state w'))
                 (with_showMeasurements (showMeasurements (state w'))
                    (state w)) /\
    (arStatus (state w') = arStatus (state w) \/
     In (arStatus (state w')) [idle; session_started; placed; failed]) /\
    trace w' = (trace w ++ ConsoleLog ["AR Status:"; status] :: added)%list /\
    (forall e, In e added ->
       (exists p, e = Vibrate p /\ hasVibrate env = true) \/
       (e = Alert "AR session failed. Please try again." /\
        status = "failed")).
Proof.
  destruct w as [s t].
  unfold handleARStatus, bind, emit, setArStatus, setShowMeasurements,
    modify, ret.
  cbn.
  destruct (String.eqb status "not-presenting").
  { eexists; exists []; cbn.
    split; [reflexivity | ]. split; [reflexivity | ].
    split; [right; simpl; tauto | ].
    split; [reflexivity | intros e []]. }
  destruct (String.eqb status "session-started").
  { destruct (hasVibrate env) eqn:Hv; cbn.
    - eexists; exists [Vibrate [50; 100; 50]%Z]; cbn.
      split; [reflexivity | ]. split; [reflexivity | ].
      split; [right; simpl; tauto | ].
      split; [now rewrite <- app_assoc | ].
      intros e [<- | []]. left. now eexists.
    - eexists; exists []; cbn.
      split; [reflexivity | ]. split; [reflexivity | ].
      split; [right; simpl; tauto | ].
      split; [reflexivity | intros e []]. }
  destruct (String.eqb status "object-placed").
  { destruct (hasVibrate env) eqn:Hv; cbn.
    - eexists; exists [Vibrate [200%Z]]; cbn.
      split; [reflexivity | ]. split; [reflexivity | ].
      split; [right; simpl; tauto | ].
      split; [now rewrite <- app_assoc | ].
      intros e [<- | []]. left. now eexists.
    - eexists; exists []; cbn.
      split; [reflexivity | ]. split; [reflexivity | ].
      split; [right; simpl; tauto | ].
      split; [reflexivity | intros e []]. }
  destruct (String.eqb_spec status "failed") as [-> | Hne].
  - eexists; exists [Alert "AR session failed. Please try again."]; cbn.
    split; [reflexivity | ]. split; [reflexivity | ].
    split; [right; simpl; tauto | ].
    split; [now rewrite <- app_assoc | ].
    intros e [<- | []]. now right.
  - eexists; exists []; cbn.
    split; [reflexivity | ]. split; [now destruct s | ].
    split; [now left | ].
    split; [reflexivity | intros e []].
Qed.

(** X12. [handleConfirmation] always closes the prompt and returns
    normally.  It asks the viewer to activate AR exactly when the user
    accepted and [modelViewerRef] holds a viewer that can activate AR, and
    then, and only then, [arStatus] becomes detecting; an accepted request
    without such a viewer shows the "AR not available" notice and a declined
    one calls nothing, both leaving [arStatus] alone. *)
Theorem handleConfirmation_outcomes (allow : bool) (w : World) :
  let capable :=
    match modelViewerRef (state w) with
    | Some viewer => canActivateAR viewer
    | None => false
    end in
  exists w',
    handleConfirmation allow w = (Normal tt, w') /\
    showConfirmation (state w') = false /\
    (allow && capable = true ->
       state w' = with_arStatus detecting
                    (with_showConfirmation false (state w)) /\
       trace w' = (trace w ++ [ActivateAR])%list) /\
    (allow = true -> capable = false ->
       state w' = with_showConfirmation false (state w) /\
       trace w' = (trace w ++ [Alert "AR not available on this device"])%list)
    /\
    (allow = false ->
       state w' = with_showConfirmation false (state w) /\
       trace w' = trace w).
Proof.
  destruct w as [s t]. unfold handleConfirmation, bind, get_state. simpl.
  destruct allow; simpl.
  - destruct (modelViewerRef s) as [viewer | ] eqn:Href; simpl.
    + destruct (canActivateAR viewer) eqn:Hcan; simpl;
        eexists; (split; [reflexivity | ]); cbn;
        repeat split; intros; try discriminate;
        unfold with_arStatus, with_showConfirmation; cbn;
        now rewrite ?Href.
    + eexists; (split; [reflexivity | ]); cbn;
        repeat split; intros; try discriminate;
        unfold with_arStatus, with_showConfirmation; cbn;
        now rewrite ?Href.
  - eexists; (split; [reflexivity | ]); cbn;
      repeat split; intros; try discriminate; reflexivity.
Qed.

(** X13. On a mobile session whose prompt is closed, opening the prompt
    with "view in AR" and declining it brings back the very same state and
    trace. *)
Theorem view_in_ar_then_decline (w : World) :
  isMobile (state w) = true ->
  showConfirmation (state w) = false ->
  bind handleViewInARClick (fun _ => handleConfirmation false) w
    = (Normal tt, w).
Proof.
  destruct w as [s t]. simpl. intros Hm Hc.
  unfold bind, handleViewInARClick, handleConfirmation, bind, get_state.
  simpl. rewrite Hm. simpl.
  destruct s; simpl in *; now subst.
Qed.

Lemma view_in_ar_then_decline_witness :
  let s := state (snd (setIsMobile true
                         {| state := initialState; trace := [] |})) in
  let w := {| state := s; trace := [] |} in
  isMobile s = true /\
  bind handleViewInARClick (fun _ => handleConfirmation false) w
    = (Normal tt, w).
Proof.
  intros s w. split; [reflexivity | ].
  exact (view_in_ar_then_decline w eq_refl eq_refl).
Defined.

(** X14. Toggling the measurements twice brings back the same state and
    trace. *)
Theorem toggleMeasurements_twice (w : World) :
  bind toggleMeasurements (fun _ => toggleMeasurements) w = (Normal tt, w).
Proof.
  destruct w as [s t].
  unfold bind, toggleMeasurements, bind, get_state. simpl.
  rewrite negb_involutive. now destruct s.
Qed.

(* ------------------------------------------------------------------ *)
(** ** More on the capture *)

(** Case analysis on what the viewer and the browser do during a capture. *)
Ltac capture_cases env viewer :=
  destruct (toBlob viewer) as [blob | reason] eqn:Hblob; cbn;
  [ destruct (fault env CallCreateObjectURL) eqn:F1; cbn;
    [ | destruct (fault env CallCreateElement) eqn:F2; cbn;
        [ | destruct (fault env CallAppendChild) eqn:F3; cbn;
            [ | destruct (fault env CallClick) eqn:F4; cbn;
                [ | destruct (fault env CallRemoveChild) eqn:F5; cbn;
                    [ | destruct (fault env CallRevokeObjectURL) eqn:F6;
                        cbn;
                        [ | destruct (hasVibrate env) eqn:Hvib; cbn ]
                    ] ] ] ] ]
  | ].

Ltac unfold_capture :=
  unfold captureARImage, bind, get_state, try_catch, bind, call, settle,
    setCaptureStatus, modify, emit, throw, ret; cbn.

Section CaptureMore.

Variable env : Browser.
Variable glyphs : Glyphs.

(** X15. Whatever the viewer and the browser do, [captureARImage] returns
    normally: every exception of its [try] block is caught.  It changes no
    state cell but [captureStatus], and only adds to the trace. *)
Theorem captureARImage_never_throws (w : World) :
  exists w' added,
    captureARImage env glyphs w = (Normal tt, w') /\
    state w' = with_captureStatus (captureStatus (state w')) (state w) /\
    trace w' = (trace w ++ added)%list.
Proof.
  destruct w as [s t]. unfold_capture.
  destruct (modelViewerRef s) as [viewer | ] eqn:Href; cbn.
  - capture_cases env viewer;
      eexists; eexists; (split; [reflexivity | ]); cbn;
      (split; [unfold with_captureStatus; cbn; now rewrite ?Href | ]);
      rewrite <- ?app_assoc; cbn; reflexivity.
  - eexists; eexists; (split; [reflexivity | ]); cbn.
    split; [now destruct s | reflexivity].
Qed.

(** X16. When a viewer is present, the capture ends with the "Image
    saved" or the "Capture failed" status (never with "Capturing..."), and
    in both cases it has started exactly one timer: [ClearCaptureStatus]
    after 2000 ms, whose callback empties the status. *)
Theorem captureARImage_status_and_timer (w w' : World) :
  modelViewerRef (state w) <> None ->
  captureARImage env glyphs w = (Normal tt, w') ->
  (captureStatus (state w') = imageSaved glyphs \/
   captureStatus (state w') = captureFailed glyphs) /\
  (exists added,
     trace w' = (trace w ++ added)%list /\
     filter isSetTimeout added = [SetTimeout ClearCaptureStatus 2000]) /\
  (exists w'',
     runCallback ClearCaptureStatus w' = (Normal tt, w'') /\
     captureStatus (state w'') = "" /\
     trace w'' = trace w').
Proof.
  destruct w as [s t]. cbn. intros Href. unfold_capture.
  destruct (modelViewerRef s) as [viewer | ]; [ | congruence]. cbn.
  capture_cases env viewer; intro H; injection H as <-; cbn;
    (split; [tauto | ]);
    (split;
     [ eexists; split; [rewrite <- ?app_assoc; cbn; reflexivity | ];
       reflexivity
     | eexists; repeat split ]).
Qed.

(** X17. The capture pulses and announces "Image saved" only after a
    complete success: if its trace gained a pulse, then [toBlob] resolved,
    no call of the [try] block threw, the download link was clicked exactly
    once, under the name [ar-product-<timestamp>.png], and the object URL
    was revoked. *)
Theorem captureARImage_pulse_means_success
    (w w' : World) (added : list Effect) (pattern : list Z) :
  captureARImage env glyphs w = (Normal tt, w') ->
  trace w' = (trace w ++ added)%list ->
  In (Vibrate pattern) added ->
  exists viewer blob,
    modelViewerRef (state w) = Some viewer /\
    toBlob viewer = Normal blob /\
    (forall c, fault env c = None) /\
    captureStatus (state w') = imageSaved glyphs /\
    filter isClick added =
      [Click {| href := objectURL env blob;
                download := "ar-product-"
                            ++ replaceColonsAndDots (now env) ++ ".png" |}]
    /\
    In (RevokeObjectURL (objectURL env blob)) added.
Proof.
  destruct w as [s t]. cbn. unfold_capture.
  destruct (modelViewerRef s) as [viewer | ] eqn:Href; cbn.
  - capture_cases env viewer; intro H; injection H as <-; cbn;
      rewrite <- ?app_assoc; cbn; intro Ht;
      apply app_inv_head in Ht; subst added; cbn;
      intro Hin; try (exfalso; intuition discriminate).
    exists viewer, blob.
    split; [reflexivity | ]. split; [exact Hblob | ].
    split; [intros []; assumption | ].
    split; [reflexivity | ]. split; [reflexivity | ].
    cbn. tauto.
  - intro H; injection H as <-; cbn. intro Ht.
    apply app_inv_head in Ht. subst added. cbn.
    intro Hin. exfalso. intuition discriminate.
Qed.

End CaptureMore.

Lemma replaceColonsAndDots_length (s : string) :
  String.length (replaceColonsAndDots s) = String.length s.
Proof. induction s as [ | c s IH]; simpl; congruence. Qed.

Lemma replaceColonsAndDots_clean (s : string) :
  allChars (fun c => negb (isColonOrDot c)) (replaceColonsAndDots s) = true.
Proof.
  induction s as [ | c s IH]; [reflexivity | ]. simpl. rewrite IH.
  fold (isColonOrDot c). destruct (isColonOrDot c) eqn:E; [reflexivity | ].
  now rewrite E.
Qed.

Lemma replaceColonsAndDots_fixes_clean (s : string) :
  allChars (fun c => negb (isColonOrDot c)) s = true ->
  replaceColonsAndDots s = s.
Proof.
  induction s as [ | c s IH]; [reflexivity | ]. simpl.
  intro H. apply andb_true_iff in H. destruct H as [Hc Hs].
  fold (isColonOrDot c). apply negb_true_iff in Hc. rewrite Hc.
  now rewrite IH.
Qed.

(** X18. The timestamp part of the download name has the length of the
    ISO timestamp and holds no colon and no full stop, and a string without
    them is left as it is (so replacing twice is replacing once). *)
Theorem replaceColonsAndDots_spec (s : string) :
  String.length (replaceColonsAndDots s) = String.length s /\
  allChars (fun c => negb (isColonOrDot c)) (replaceColonsAndDots s) = true /\
  replaceColonsAndDots (replaceColonsAndDots s) = replaceColonsAndDots s /\
  (allChars (fun c => negb (isColonOrDot c)) s = true ->
   replaceColonsAndDots s = s).
Proof.
  split; [apply replaceColonsAndDots_length | ].
  split; [apply replaceColonsAndDots_clean | ].
  split; [ | apply replaceColonsAndDots_fixes_clean].
  apply replaceColonsAndDots_fixes_clean, replaceColonsAndDots_clean.
Qed.

Lemma captureARImage_status_and_timer_witness :
  let w := {| state := stateWithViewer readyViewer; trace := [] |} in
  exists w',
    captureARImage appendChildThrows part_000_glyphs w = (Normal tt, w') /\
    captureStatus (state w') = captureFailed part_000_glyphs /\
    exists w'',
      runCallback ClearCaptureStatus w' = (Normal tt, w'') /\
      captureStatus (state w'') = "" /\
      trace w'' = trace w'.
Proof.
  intro w. eexists. split; [reflexivity | ]. split; [reflexivity | ].
  refine (proj2 (proj2 (captureARImage_status_and_timer
            appendChildThrows part_000_glyphs w _ _ eq_refl))).
  discriminate.
Defined.

Lemma captureARImage_pulse_means_success_witness :
  let w := {| state := stateWithViewer readyViewer; trace := [] |} in
  exists viewer blob,
    modelViewerRef (state w) = Some viewer /\
    toBlob viewer = Normal blob /\
    (forall c, fault plainBrowser c = None) /\
    captureStatus
      (state (snd (captureARImage plainBrowser welcome_glyphs w)))
      = imageSaved welcome_glyphs /\
    filter isClick
      (trace (snd (captureARImage plainBrowser welcome_glyphs w))) =
      [Click {| href := objectURL plainBrowser blob;
                download := "ar-product-"
                            ++ replaceColonsAndDots (now plainBrowser)
                            ++ ".png" |}]
    /\
    In (RevokeObjectURL (objectURL plainBrowser blob))
       (trace (snd (captureARImage plainBrowser welcome_glyphs w))).
Proof.
  intro w.
  apply (captureARImage_pulse_means_success plainBrowser welcome_glyphs
           w (snd (captureARImage plainBrowser welcome_glyphs w))
           (trace (snd (captureARImage plainBrowser welcome_glyphs w)))
           [50; 50; 50]%Z).
  - reflexivity.
  - reflexivity.
  - vm_compute. tauto.
Defined.

(* ------------------------------------------------------------------ *)
(** ** The iOS model URL *)

Lemma prefix_append (a b : string) : String.prefix a (a ++ b) = true.
Proof.
  induction a as [ | c a IH]; simpl.
  - now destruct b.
  - destruct (ascii_dec c c); [exact IH | congruence].
Qed.

Lemma prefix_refl (a : string) : String.prefix a a = true.
Proof.
  induction a as [ | c a IH]; simpl; [reflexivity | ].
  destruct (ascii_dec c c); [exact IH | congruence].
Qed.

Lemma upperHexDigit_safe (n : N) :
  (n < 16)%N -> isUnreserved (upperHexDigit n) = true.
Proof.
  intro Hn.
  assert (Hall : forallb (fun k => isUnreserved (upperHexDigit (N.of_nat k)))
                         (seq 0 16) = true) by (vm_compute; reflexivity).
  rewrite forallb_forall in Hall. specialize (Hall (N.to_nat n)).
  rewrite N2Nat.id in Hall. apply Hall. apply in_seq. lia.
Qed.

Lemma N_of_ascii_below_256 (c : ascii) : (N_of_ascii c < 256)%N.
Proof. destruct c as [[] [] [] [] [] [] [] []]; reflexivity. Qed.

Lemma encodeURIComponent_safe (s : string) :
  allChars (fun c => isUnreserved c || Ascii.eqb c "%")
           (encodeURIComponent s) = true.
Proof.
  induction s as [ | c s IH]; [reflexivity | ]. simpl.
  destruct (isUnreserved c) eqn:Hc; simpl.
  - now rewrite Hc, IH.
  - rewrite IH, !upperHexDigit_safe; [reflexivity | | ].
    + apply N.mod_lt. discriminate.
    + apply N.Div0.div_lt_upper_bound.
      exact (N_of_ascii_below_256 c).
Qed.

(** X19. The effect that computes the iOS model URL never throws, calls
    nothing and changes only [customUSDZUrl].  The URL is the base URL
    unless the device is iOS and the colour differs from "#FFFFFF" (compared
    as written); then it is the base URL followed by [?color=], the encoded
    colour, [&scale=] and the scale.  In both cases the base URL is a prefix
    of it and of the [ios-src] the markup passes on (which is the base URL
    itself while [customUSDZUrl] is empty), and the encoded colour holds
    nothing but unreserved characters and [%], so no [#], [&] or [=] of the
    colour reaches the query. *)
Theorem customUrlEffect_outcome
    (BASE_USDZ_URL : string) (numberToString : JS.number -> string)
    (w : World) :
  let s := state w in
  let custom :=
    isIOS s && negb (String.eqb (color (customizations s)) "#FFFFFF") in
  exists url,
    customUrlEffect BASE_USDZ_URL numberToString w
      = (Normal tt, {| state := with_customUSDZUrl url s;
                       trace := trace w |}) /\
    url = (if custom
           then BASE_USDZ_URL ++ "?color="
                ++ encodeURIComponent (color (customizations s))
                ++ "&scale=" ++ numberToString (scale (customizations s))
           else BASE_USDZ_URL) /\
    String.prefix BASE_USDZ_URL url = true /\
    String.prefix BASE_USDZ_URL
      (iosSrc BASE_USDZ_URL (with_customUSDZUrl url s)) = true /\
    (customUSDZUrl s = "" -> iosSrc BASE_USDZ_URL s = BASE_USDZ_URL) /\
    allChars (fun c => isUnreserved c || Ascii.eqb c "%")
             (encodeURIComponent (color (customizations s))) = true.
Proof.
  destruct w as [s t]. cbn.
  unfold customUrlEffect, bind, get_state, setCustomUSDZUrl, modify. cbn.
  assert (Hios : forall url,
            String.prefix BASE_USDZ_URL url = true ->
            String.prefix BASE_USDZ_URL
              (iosSrc BASE_USDZ_URL (with_customUSDZUrl url s)) = true).
  { intros url Hurl. unfold iosSrc. cbn.
    destruct url; cbn; [apply prefix_refl | exact Hurl]. }
  destruct (isIOS s && negb (String.eqb (color (customizations s)) "#FFFFFF"));
    eexists; (split; [reflexivity | ]); (split; [reflexivity | ]).
  - split; [apply prefix_append | ].
    split; [apply Hios, prefix_append | ].
    split; [ | apply encodeURIComponent_safe].
    unfold iosSrc. now intros ->.
  - split; [apply prefix_refl | ].
    split; [apply Hios, prefix_refl | ].
    split; [ | apply encodeURIComponent_safe].
    unfold iosSrc. now intros ->.
Qed.

(* ------------------------------------------------------------------ *)
(** ** [initialize] and the page of part_000 *)

Ltac unfold_handlers :=
  unfold handleEvent, initialize, handleModelLoad, runPageCallback,
    appendToHead, setPageTimeout, pbind, lift,
    supportsWebXR, isSessionSupported, handleARStatus, captureARImage,
    toggleMeasurements, handleViewInARClick, handleConfirmation,
    customUrlEffect, fitCheckEffect, runCallback,
    bind, get_state, try_catch, call, settle, throw, emit, ret,
    setIsMobile, setIsIOS, setWebXRSupported, setCustomizations,
    setCaptureEnabled, setCustomUSDZUrl, setIsModelLoaded,
    setShowInstructions, setModelViewerRef, setShowConfirmation,
    setArStatus, setShowMeasurements, setFitCheckResult, setCaptureStatus,
    modify in *.

Ltac no_inner_match x :=
  lazymatch x with
  | context [match _ with _ => _ end] => fail
  | context [if _ then _ else _] => fail
  | _ => idtac
  end.

(** Split [H : handler p = (c, p')] into the runs the handler can make,
    each with its completion and final page in place of [c] and [p']. *)
Ltac step_cases H :=
  unfold_handlers; cbn in H;
  repeat
    (match type of H with
     | context [match ?x with _ => _ end] =>
         no_inner_match x;
         let E := fresh "E" in destruct x eqn:E; cbn in H
     | context [if ?b then _ else _] =>
         no_inner_match b;
         let E := fresh "E" in destruct b eqn:E; cbn in H
     end);
  injection H as <- <-.

(** An effect is not among those a handler added to a trace known to be
    free of it. *)
Ltac not_added :=
  let Hin := fresh "Hin" in
  intro Hin;
  repeat (apply in_app_or in Hin; destruct Hin as [Hin | Hin]);
  cbn in Hin; intuition (try discriminate; eauto).

Lemma getElementById_appended (doc : list Element) :
  getElementById (doc ++ [modelViewerScript]) scriptId <> None.
Proof.
  unfold getElementById.
  induction doc as [ | el doc IH]; cbn; [discriminate | ].
  destruct (String.eqb (elementId el) scriptId); [discriminate | exact IH].
Qed.

(** X20. [initialize] sets [isMobile], [isIOS], [webXRSupported] (true
    only if the capability query resolved to true) and [customizations]
    from the user agent, the probe and the query string, and starts no
    timer.  A missing or failing capability API never makes it fail: it
    ends normally, with the viewer script in the document, unless the script
    is absent and creating or appending its element throws; then the
    exception escapes, after the four cells were set, and the document is
    unchanged. *)
Theorem initialize_outcome (loc : Location) (env : Browser) (p : Page) :
  exists c p',
    initialize loc env p = (c, p') /\
    isMobile (state (component p')) = isMobileDevice (userAgent loc) /\
    isIOS (state (component p')) = isIOSDevice (userAgent loc) /\
    webXRSupported (state (component p')) =
      match xr env with
      | Some (Resolves supported) => supported
      | _ => false
      end /\
    customizations (state (component p')) = parseUrlParams (search loc) /\
    timers p' = timers p /\
    ((c = Normal tt /\
      getElementById (document p') scriptId <> None) \/
     (exists err,
        c = Throw err /\
        getElementById (document p) scriptId = None /\
        (fault env CallCreateElement = Some err \/
         fault env CallAppendChild = Some err) /\
        document p' = document p)).
Proof.
  destruct p as [[s t] doc tm].
  destruct (initialize loc env
              {| component := {| state := s; trace := t |};
                 document := doc; timers := tm |}) as [c p'] eqn:H.
  exists c, p'. split; [reflexivity | ].
  unfold getElementById in *.
  step_cases H; cbn; repeat (split; [reflexivity | ]);
    try (left; split; [reflexivity | ];
         first [ congruence | apply getElementById_appended ]);
    try (right; eexists; split; [reflexivity | ];
         split; [assumption | ]; split; [ | reflexivity]; tauto).
Qed.

Section PageInvariants.

Variable loc : Location.
Variable env : Browser.
Variable glyphs : Glyphs.
Variable numberToString : JS.number -> string.
Variable doc0 : list Element.

Abbreviation reachable :=
  (reaches loc env glyphs numberToString (initialPage doc0)).

(** X21. Every handler of the page except the mount effect returns
    normally on every page: none of them lets an exception escape. *)
Theorem handlers_never_throw (ev : PageEvent) (p : Page) :
  ev <> Mount ->
  exists p', handleEvent loc env glyphs numberToString ev p = (Normal tt, p').
Proof.
  intro Hev. destruct p as [[s t] doc tm].
  destruct (handleEvent loc env glyphs numberToString ev
              {| component := {| state := s; trace := t |};
                 document := doc; timers := tm |}) as [c p'] eqn:H.
  exists p'. f_equal.
  destruct ev; try congruence; step_cases H; reflexivity.
Qed.

(** X22. No page reached from the initial one has [arStatus] ready: no
    handler ever sets that value of the type. *)
Theorem ready_is_never_reached (p : Page) :
  reachable p -> arStatus (state (component p)) <> ready.
Proof.
  induction 1 as [ | p p' ev c Hreach IH Hoff Hstep]; [discriminate | ].
  destruct p as [[s t] doc tm]; cbn in IH.
  destruct ev; step_cases Hstep; cbn; (exact IH || discriminate).
Qed.

(** X23. In part_000 nothing sets [dimensions]: on every page reached
    from the initial one [dimensions] and [fitCheckResult] are still null,
    so the fit check never produces a verdict there and the measurements
    toggle is never offered. *)
Theorem dimensions_never_set (p : Page) :
  reachable p ->
  dimensions (state (component p)) = None /\
  fitCheckResult (state (component p)) = None /\
  offered p ClickToggleMeasurements = false.
Proof.
  intro Hreach.
  assert (Hinv : dimensions (state (component p)) = None /\
                 fitCheckResult (state (component p)) = None).
  { induction Hreach as [ | p p' ev c Hreach IH Hoff Hstep];
      [now split | ].
    destruct p as [[s t] doc tm]; cbn in IH. destruct IH as [IHd IHf].
    destruct ev; step_cases Hstep; cbn; split;
      first [ assumption | congruence ]. }
  destruct Hinv as [Hd Hf]. repeat split; try assumption.
  unfold offered. now rewrite Hd.
Qed.

(** X24. The capture button is offered only once a viewer is stored: on
    every page reached from the initial one, [captureEnabled] implies that
    [modelViewerRef] holds a viewer, and the trace has no "Model viewer not
    ready" notice. *)
Theorem capture_offered_with_viewer (p : Page) :
  reachable p ->
  (captureEnabled (state (component p)) = true ->
   modelViewerRef (state (component p)) <> None) /\
  ~ In (Alert "Model viewer not ready") (trace (component p)).
Proof.
  induction 1 as [ | p p' ev c Hreach IH Hoff Hstep].
  - cbn. split; [discriminate | tauto].
  - destruct p as [[s t] doc tm]; cbn in IH, Hoff.
    destruct IH as [IHc IHt].
    destruct ev; step_cases Hstep; cbn;
      try (apply andb_true_iff in Hoff; destruct Hoff as [Hoff _];
           exfalso; now apply IHc);
      (split; [first [ assumption | discriminate | congruence ]
              | first [ assumption | not_added ] ]).
Qed.

(** X25. When the user agent is not a mobile one, no page reached from
    the initial one is flagged mobile or shows the confirmation prompt; its
    [arStatus] is never detecting, the viewer was never asked to activate
    AR, and the "AR not available" notice was never shown. *)
Theorem desktop_never_activates_ar (p : Page) :
  isMobileDevice (userAgent loc) = false ->
  reachable p ->
  isMobile (state (component p)) = false /\
  showConfirmation (state (component p)) = false /\
  arStatus (state (component p)) <> detecting /\
  ~ In ActivateAR (trace (component p)) /\
  ~ In (Alert "AR not available on this device") (trace (component p)).
Proof.
  intro Hua.
  induction 1 as [ | p p' ev c Hreach IH Hoff Hstep].
  - cbn. repeat split; (discriminate || tauto).
  - destruct p as [[s t] doc tm]; cbn in IH, Hoff.
    destruct IH as [IHm [IHc [IHa [IHt IHn]]]].
    destruct ev; cbn in Hoff; try congruence; step_cases Hstep; cbn;
      try congruence;
      (split; [first [ assumption | congruence ] | ]);
      (split; [first [ assumption | congruence ] | ]);
      (split; [first [ assumption | discriminate ] | ]);
      (split; first [ assumption | not_added ]).
Qed.

(** X26. On every page reached from the initial one, a session flagged
    iOS is also flagged mobile. *)
Theorem ios_flag_implies_mobile_flag (p : Page) :
  reachable p ->
  isIOS (state (component p)) = true ->
  isMobile (state (component p)) = true.
Proof.
  induction 1 as [ | p p' ev c Hreach IH Hoff Hstep]; [discriminate | ].
  destruct p as [[s t] doc tm]; cbn in IH.
  destruct ev; step_cases Hstep; cbn;
    first [ exact IH
          | apply isIOSDevice_isMobileDevice
          | intro Hi; specialize (IH Hi); congruence ].
Qed.

(** X27. However often the mount effect runs, the viewer script is added
    to the document at most once, and only if no element had its id: the
    document of a reached page is the initial one, or the initial one
    followed by the script element. *)
Theorem script_added_at_most_once (p : Page) :
  reachable p ->
  document p = doc0 \/
  (getElementById doc0 scriptId = None /\
   document p = (doc0 ++ [modelViewerScript])%list).
Proof.
  induction 1 as [ | p p' ev c Hreach IH Hoff Hstep]; [now left | ].
  destruct p as [[s t] doc tm]; cbn in IH.
  unfold getElementById in *.
  destruct ev; step_cases Hstep; cbn; try exact IH.
  all: destruct IH as [-> | [Hnone ->]];
    [ right; now split
    | exfalso; now apply (getElementById_appended doc0) ].
Qed.

(** X28. In a browser without [navigator.vibrate], no page reached from
    the initial one has a pulse in its trace. *)
Theorem no_pulse_without_vibrate (p : Page) (pattern : list Z) :
  hasVibrate env = false ->
  reachable p ->
  ~ In (Vibrate pattern) (trace (component p)).
Proof.
  intro Hv.
  induction 1 as [ | p p' ev c Hreach IH Hoff Hstep]; [cbn; tauto | ].
  destruct p as [[s t] doc tm]; cbn in IH.
  destruct ev; step_cases Hstep; cbn;
    try congruence;
    try (rewrite Hv in *; discriminate);
    first [ assumption | not_added ].
Qed.

End PageInvariants.

(* ------------------------------------------------------------------ *)
(** ** Sample pages *)

Lemma desktopMounted_reachable (glyphs : Glyphs) :
  reaches desktopLocation plainBrowser glyphs (fun _ => "1")
    (initialPage []) desktopMounted.
Proof.
  eapply reaches_step with (ev := Mount) (c := Normal tt);
    [apply reaches_start | vm_compute; reflexivity
    | vm_compute; reflexivity].
Qed.

Lemma desktopLoaded_reachable (glyphs : Glyphs) :
  reaches desktopLocation plainBrowser glyphs (fun _ => "1")
    (initialPage []) desktopLoaded.
Proof.
  eapply reaches_step with (ev := ViewerLoad readyViewer) (c := Normal tt);
    [apply desktopMounted_reachable | vm_compute; reflexivity
    | vm_compute; reflexivity].
Qed.

Lemma iPhoneMounted_reachable (glyphs : Glyphs) :
  reaches iPhoneLocation plainBrowser glyphs (fun _ => "1")
    (initialPage []) iPhoneMounted.
Proof.
  eapply reaches_step with (ev := Mount) (c := Normal tt);
    [apply reaches_start | vm_compute; reflexivity
    | vm_compute; reflexivity].
Qed.

Lemma silentSession_reachable (glyphs : Glyphs) :
  reaches desktopLocation silentBrowser glyphs (fun _ => "1")
    (initialPage []) silentSession.
Proof.
  eapply reaches_step
    with (ev := ViewerARStatus "session-started") (c := Normal tt);
    [ eapply reaches_step with (ev := Mount) (c := Normal tt);
      [apply reaches_start | vm_compute; reflexivity
    | vm_compute; reflexivity]
    | vm_compute; reflexivity | vm_compute; reflexivity].
Qed.

Lemma handlers_never_throw_witness :
  ClickCapture <> Mount /\
  exists p',
    handleEvent desktopLocation appendChildThrows welcome_glyphs
      (fun _ => "1") ClickCapture desktopLoaded = (Normal tt, p').
Proof.
  split; [discriminate | ].
  apply (handlers_never_throw desktopLocation appendChildThrows
           welcome_glyphs (fun _ => "1") ClickCapture desktopLoaded).
  discriminate.
Defined.

Lemma ready_is_never_reached_witness :
  reaches desktopLocation plainBrowser welcome_glyphs (fun _ => "1")
    (initialPage []) desktopLoaded /\
  arStatus (state (component desktopLoaded)) <> ready.
Proof.
  split; [apply desktopLoaded_reachable | ].
  exact (ready_is_never_reached desktopLocation plainBrowser welcome_glyphs
           (fun _ => "1") [] desktopLoaded
           (desktopLoaded_reachable welcome_glyphs)).
Defined.

Lemma dimensions_never_set_witness :
  reaches desktopLocation plainBrowser part_000_glyphs (fun _ => "1")
    (initialPage []) desktopLoaded /\
  dimensions (state (component desktopLoaded)) = None /\
  fitCheckResult (state (component desktopLoaded)) = None /\
  offered desktopLoaded ClickToggleMeasurements = false.
Proof.
  split; [apply desktopLoaded_reachable | ].
  exact (dimensions_never_set desktopLocation plainBrowser part_000_glyphs
           (fun _ => "1") [] desktopLoaded
           (desktopLoaded_reachable part_000_glyphs)).
Defined.

Lemma capture_offered_with_viewer_witness :
  reaches desktopLocation plainBrowser part_000_glyphs (fun _ => "1")
    (initialPage []) desktopLoaded /\
  captureEnabled (state (component desktopLoaded)) = true /\
  modelViewerRef (state (component desktopLoaded)) <> None.
Proof.
  split; [apply desktopLoaded_reachable | ].
  split; [reflexivity | ].
  exact (proj1 (capture_offered_with_viewer desktopLocation plainBrowser
                  part_000_glyphs (fun _ => "1") [] desktopLoaded
                  (desktopLoaded_reachable part_000_glyphs))
               eq_refl).
Defined.

Lemma desktop_never_activates_ar_witness :
  isMobileDevice (userAgent desktopLocation) = false /\
  reaches desktopLocation plainBrowser part_000_glyphs (fun _ => "1")
    (initialPage []) desktopLoaded /\
  arStatus (state (component desktopLoaded)) <> detecting /\
  ~ In ActivateAR (trace (component desktopLoaded)).
Proof.
  split; [reflexivity | ].
  split; [apply desktopLoaded_reachable | ].
  pose proof (desktop_never_activates_ar desktopLocation plainBrowser
                part_000_glyphs (fun _ => "1") [] desktopLoaded
                eq_refl (desktopLoaded_reachable part_000_glyphs)) as H.
  exact (conj (proj1 (proj2 (proj2 H)))
              (proj1 (proj2 (proj2 (proj2 H))))).
Defined.

Lemma ios_flag_implies_mobile_flag_witness :
  reaches iPhoneLocation plainBrowser part_000_glyphs (fun _ => "1")
    (initialPage []) iPhoneMounted /\
  isIOS (state (component iPhoneMounted)) = true /\
  isMobile (state (component iPhoneMounted)) = true.
Proof.
  split; [apply iPhoneMounted_reachable | ].
  split; [reflexivity | ].
  exact (ios_flag_implies_mobile_flag iPhoneLocation plainBrowser
           part_000_glyphs (fun _ => "1") [] iPhoneMounted
           (iPhoneMounted_reachable part_000_glyphs) eq_refl).
Defined.

Lemma script_added_at_most_once_witness :
  reaches desktopLocation plainBrowser part_000_glyphs (fun _ => "1")
    (initialPage []) desktopLoaded /\
  (document desktopLoaded = [] \/
   getElementById [] scriptId = None /\
   document desktopLoaded = ([] ++ [modelViewerScript])%list).
Proof.
  split; [apply desktopLoaded_reachable | ].
  exact (script_added_at_most_once desktopLocation plainBrowser
           part_000_glyphs (fun _ => "1") [] desktopLoaded
           (desktopLoaded_reachable part_000_glyphs)).
Defined.

Lemma no_pulse_without_vibrate_witness :
  hasVibrate silentBrowser = false /\
  reaches desktopLocation silentBrowser part_000_glyphs (fun _ => "1")
    (initialPage []) silentSession /\
  arStatus (state (component silentSession)) = session_started /\
  ~ In (Vibrate [50; 100; 50]%Z) (trace (component silentSession)).
Proof.
  split; [reflexivity | ].
  split; [apply silentSession_reachable | ].
  split; [reflexivity | ].
  exact (no_pulse_without_vibrate desktopLocation silentBrowser
           part_000_glyphs (fun _ => "1") [] silentSession
           [50; 100; 50]%Z eq_refl
           (silentSession_reachable part_000_glyphs)).
Defined.
